(** * Operator lowering of the [nn] operators (nnvm/top/nn.py)

    A shallow embedding of the compute lowering, the schedule lowering and
    the pattern registrations of the neural-network operators, with the
    properties of the dispatch policies proved on the embedding. *)

From stdpp Require Import base gmap strings list fin_maps.
From Stdlib Require Import ZArith Lia.

Local Open Scope Z_scope.

(** ** Exceptions *)

(** The exceptions a lowering call can end in.  [AssertionError] carries the
    optional message of the [assert]; [ValueError] the message of the
    [raise]; [IndexError] is Python's out-of-range subscript. *)
Inductive exn : Type :=
| AssertionError (msg : option string)
| ValueError (msg : string)
| IndexError
| AttributeError (key : string)
| TypeConversionError (key : string).

#[global] Instance exn_eq_dec : EqDecision exn.
Proof. solve_decision. Defined.

(** ** Attributes *)

(** Modelled from the spec: the attribute bag and its typed accessors are not
    part of nn.py.  An attribute is a bool, an int, a tuple of ints or a
    string; float attributes are only read by lrn and l2_normalize, which
    are not modelled. *)
Inductive attr_value : Type :=
| VBool (b : bool)
| VInt (z : Z)
| VTuple (t : list Z)
| VStr (s : string).

#[global] Instance attr_value_eq_dec : EqDecision attr_value.
Proof. solve_decision. Defined.

Abbreviation AttrDict := (gmap string attr_value).

(** ** Calls into the tensor-expression library *)

Section Calls.
Variable Tensor : Type.

(** One constructor per primitive of the tensor-expression library that
    nn.py calls, with the arguments in the order of the call. *)
Inductive TopiCall : Type :=
| nn_dense (data weight : Tensor) (bias : option Tensor)
| nn_dilate (data : Tensor) (strides : list Z)
| nn_conv2d (data kernel : Tensor) (strides padding : list Z)
    (layout : attr_value)
| nn_depthwise_conv2d_nchw (data kernel : Tensor) (strides padding : list Z)
| nn_conv2d_NCHWc (data kernel : Tensor) (num_filter : Z)
    (kernel_size : Z * Z) (strides padding : list Z)
| nn_conv2d_transpose_nchw (data kernel : Tensor) (strides padding : list Z)
| expand_dims (a : Tensor) (axis num_newaxis : Z)
| broadcast_add (lhs rhs : Tensor)
| nn_pad (data : Tensor) (pad_before pad_after : list Z).

(** The schedule templates of [topi.generic] that nn.py selects from. *)
Inductive GenericSchedule : Type :=
| generic_schedule_softmax (outs : list Tensor)
| generic_schedule_dense (outs : list Tensor)
| generic_schedule_conv2d_nchw (outs : list Tensor)
| generic_schedule_conv2d_nhwc (outs : list Tensor)
| generic_schedule_depthwise_conv2d_nchw (outs : list Tensor)
| generic_schedule_conv2d_NCHWc (oc : Z) (kernel_size : Z * Z)
    (strides padding : list Z) (outs : list Tensor)
| generic_schedule_conv2d_transpose_nchw (outs : list Tensor)
| generic_schedule_pool (outs : list Tensor)
| generic_schedule_global_pool (outs : list Tensor)
| generic_schedule_injective (outs : list Tensor)
| generic_schedule_lrn (outs : list Tensor)
| generic_schedule_l2_normalize (outs : list Tensor).
End Calls.

Arguments nn_dense {Tensor}.
Arguments nn_dilate {Tensor}.
Arguments nn_conv2d {Tensor}.
Arguments nn_depthwise_conv2d_nchw {Tensor}.
Arguments nn_conv2d_NCHWc {Tensor}.
Arguments nn_conv2d_transpose_nchw {Tensor}.
Arguments expand_dims {Tensor}.
Arguments broadcast_add {Tensor}.
Arguments nn_pad {Tensor}.
Arguments generic_schedule_softmax {Tensor}.
Arguments generic_schedule_dense {Tensor}.
Arguments generic_schedule_conv2d_nchw {Tensor}.
Arguments generic_schedule_conv2d_nhwc {Tensor}.
Arguments generic_schedule_depthwise_conv2d_nchw {Tensor}.
Arguments generic_schedule_conv2d_NCHWc {Tensor}.
Arguments generic_schedule_conv2d_transpose_nchw {Tensor}.
Arguments generic_schedule_pool {Tensor}.
Arguments generic_schedule_global_pool {Tensor}.
Arguments generic_schedule_injective {Tensor}.
Arguments generic_schedule_lrn {Tensor}.
Arguments generic_schedule_l2_normalize {Tensor}.

(** The external libraries, as an interface.  nn.py only builds calls; what a
    primitive returns is the library's business, so every result below is
    stated for an arbitrary implementation.  A library call is taken to
    return: a failure inside the library is not a behaviour of nn.py.  A
    schedule template is resolved against the target that is current when it
    is requested. *)
Class TensorLib : Type := {
  Tensor : Type;
  Expr : Type;
  Target : Type;
  Schedule : Type;
  shape : Tensor → list Expr;
  get_const_int : Expr → Z;
  topi : TopiCall Tensor → Tensor;
  tvm_target_create : string → Target;
  topi_generic : option Target → GenericSchedule Tensor → Schedule
}.

(** ** The lowering monad *)

Section Lowering.
Context `{TensorLib}.

(** What a call leaves behind: every library call it made, oldest first. A
    schedule request is recorded with the target that was current. *)
Inductive Event : Type :=
| Prim (c : TopiCall Tensor)
| Sched (current : option Target) (s : GenericSchedule Tensor).

(** [scope] is the stack of entered target scopes, innermost first. *)
Record State : Type := mkState {
  scope : list Target;
  trace : list Event
}.

Definition M (A : Type) : Type := State → State * (exn + A).

Definition ret {A} (a : A) : M A := λ st, (st, inr a).

Definition raise {A} (e : exn) : M A := λ st, (st, inl e).

Definition bind {A B} (m : M A) (k : A → M B) : M B :=
  λ st, match m st with
        | (st', inr a) => k a st'
        | (st', inl e) => (st', inl e)
        end.

Definition record (ev : Event) (st : State) : State :=
  mkState (scope st) (trace st ++ [ev]).

(** A call of a tensor-expression primitive. *)
Definition call (c : TopiCall Tensor) : M Tensor :=
  λ st, (record (Prim c) st, inr (topi c)).

(** A request for a schedule template, under the current target. *)
Definition request (s : GenericSchedule Tensor) : M Schedule :=
  λ st, (record (Sched (head (scope st)) s) st,
         inr (topi_generic (head (scope st)) s)).

(** [with tvm.target.create(target): body]: the scope is entered, and left
    again on return and on failure alike. *)
Definition with_target {A} (target : string) (body : M A) : M A :=
  λ st, match body (mkState (tvm_target_create target :: scope st)
                            (trace st)) with
        | (st', r) => (mkState (tail (scope st')) (trace st'), r)
        end.

(** [assert cond, msg] *)
Definition py_assert (cond : bool) (msg : option string) : M unit :=
  if cond then ret tt else raise (AssertionError msg).

(** [seq[i]] for a literal index [i]. *)
Definition getitem {A} (seq : list A) (i : nat) : M A :=
  match seq !! i with
  | Some x => ret x
  | None => raise IndexError
  end.

(** [(a, b) = t]; the messages are Python's, without the counts. *)
Definition unpack2 (t : list Z) : M (Z * Z) :=
  match t with
  | [a; b] => ret (a, b)
  | _ :: _ :: _ :: _ => raise (ValueError "too many values to unpack")
  | _ => raise (ValueError "not enough values to unpack")
  end.

(** Modelled from the spec: the accessors of the attribute view, which are
    not part of nn.py.  A missing key fails with [AttributeError], a value of
    another type with [TypeConversionError].  This one is [attrs[key]]. *)
Definition attrs_getitem (attrs : AttrDict) (key : string) : M attr_value :=
  match attrs !! key with
  | Some v => ret v
  | None => raise (AttributeError key)
  end.

(** Modelled from the spec: [attrs.get_int(key)]. *)
Definition get_int (attrs : AttrDict) (key : string) : M Z :=
  match attrs !! key with
  | Some (VInt z) => ret z
  | Some _ => raise (TypeConversionError key)
  | None => raise (AttributeError key)
  end.

(** Modelled from the spec: [attrs.get_int_tuple(key)]. *)
Definition get_int_tuple (attrs : AttrDict) (key : string) : M (list Z) :=
  match attrs !! key with
  | Some (VTuple t) => ret t
  | Some _ => raise (TypeConversionError key)
  | None => raise (AttributeError key)
  end.

(** Modelled from the spec: [attrs.get_bool(key)]. *)
Definition get_bool (attrs : AttrDict) (key : string) : M bool :=
  match attrs !! key with
  | Some (VBool b) => ret b
  | Some _ => raise (TypeConversionError key)
  | None => raise (AttributeError key)
  end.

End Lowering.

Notation "x <- c1 ;; c2" := (bind c1 (λ x, c2))
  (at level 100, c1 at next level, right associativity).
Notation "c1 ;; c2" := (bind c1 (λ _, c2))
  (at level 100, right associativity).

(** ** Compute lowering *)

Section Compute.
Context `{TensorLib}.

Definition NCHW : attr_value := VStr "NCHW".
Definition NHWC : attr_value := VStr "NHWC".

(** [compute_dense], nn.py lines 61-66. *)
Definition compute_dense (attrs : AttrDict) (inputs : list Tensor)
  : M Tensor :=
  use_bias <- get_bool attrs "use_bias" ;;
  if use_bias then
    data <- getitem inputs 0 ;;
    weight <- getitem inputs 1 ;;
    bias <- getitem inputs 2 ;;
    call (nn_dense data weight (Some bias))
  else
    data <- getitem inputs 0 ;;
    weight <- getitem inputs 1 ;;
    call (nn_dense data weight None).

(** Lines 88-96 of [compute_conv2d]: the kernel the convolution is given. *)
Definition conv2d_kernel (layout : attr_value) (dilation : list Z)
    (inputs : list Tensor) : M Tensor :=
  d <- unpack2 dilation ;;
  let '(dilation_h, dilation_w) := d in
  if (dilation_h <? 1) || (dilation_w <? 1) then
    raise (ValueError "dilation should be positive value")
  else if bool_decide (dilation = [1; 1]) then
    getitem inputs 1
  else if bool_decide (layout = NCHW) then
    w <- getitem inputs 1 ;;
    call (nn_dilate w [1; 1; dilation_h; dilation_w])
  else
    w <- getitem inputs 1 ;;
    call (nn_dilate w [1; dilation_h; dilation_w; 1]).

(** Lines 98-103 of [compute_conv2d]: the choice of the convolution. The
    channel count is only read when [groups] is not 1. *)
Definition conv2d_dispatch (groups channels : Z) (layout : attr_value)
    (strides padding : list Z) (inputs : list Tensor) (kernel : Tensor)
  : M Tensor :=
  if groups =? 1 then
    data <- getitem inputs 0 ;;
    call (nn_conv2d data kernel strides padding layout)
  else
    data <- getitem inputs 0 ;;
    c <- getitem (shape data) 1 ;;
    if (groups =? get_const_int c) && (groups =? channels) then
      data <- getitem inputs 0 ;;
      call (nn_depthwise_conv2d_nchw data kernel strides padding)
    else
      raise (ValueError "not support arbitrary group number for now").

(** Lines 104-109 of [compute_conv2d]: the optional bias. *)
Definition conv2d_bias (attrs : AttrDict) (layout : attr_value)
    (inputs : list Tensor) (out : Tensor) : M Tensor :=
  use_bias <- get_bool attrs "use_bias" ;;
  if use_bias then
    bias <- getitem inputs 2 ;;
    let expand_axis := if bool_decide (layout = NCHW) then 1 else 0 in
    bias <- call (expand_dims bias expand_axis 2) ;;
    call (broadcast_add out bias)
  else ret out.

(** [compute_conv2d], nn.py lines 78-109. *)
Definition compute_conv2d (attrs : AttrDict) (inputs : list Tensor)
  : M Tensor :=
  padding <- get_int_tuple attrs "padding" ;;
  strides <- get_int_tuple attrs "strides" ;;
  dilation <- get_int_tuple attrs "dilation" ;;
  groups <- get_int attrs "groups" ;;
  channels <- get_int attrs "channels" ;;
  layout <- attrs_getitem attrs "layout" ;;
  py_assert (bool_decide (layout = NCHW) || bool_decide (layout = NHWC))
    None ;;
  kernel <- conv2d_kernel layout dilation inputs ;;
  out <- conv2d_dispatch groups channels layout strides padding inputs
           kernel ;;
  conv2d_bias attrs layout inputs out.

(** [compute_contrib_conv2d_NCHWc], nn.py lines 130-150. *)
Definition compute_contrib_conv2d_NCHWc (attrs : AttrDict)
    (inputs : list Tensor) : M Tensor :=
  padding <- get_int_tuple attrs "padding" ;;
  strides <- get_int_tuple attrs "strides" ;;
  dilation <- get_int_tuple attrs "dilation" ;;
  k <- get_int_tuple attrs "kernel_size" ;;
  k <- unpack2 k ;;
  let '(kh, kw) := k in
  groups <- get_int attrs "groups" ;;
  channels <- get_int attrs "channels" ;;
  py_assert (bool_decide (dilation = [1; 1]))
    (Some "not support dilate now") ;;
  out <- (if groups =? 1 then
            data <- getitem inputs 0 ;;
            kernel <- getitem inputs 1 ;;
            call (nn_conv2d_NCHWc data kernel channels (kh, kw) strides
                    padding)
          else
            raise (ValueError
                     "not support arbitrary group number > 1 for now")) ;;
  use_bias <- get_bool attrs "use_bias" ;;
  if use_bias then
    bias <- getitem inputs 2 ;;
    bias <- call (expand_dims bias 1 2) ;;
    call (broadcast_add out bias)
  else ret out.

(** [compute_conv2d_transpose], nn.py lines 169-188. *)
Definition compute_conv2d_transpose (attrs : AttrDict)
    (inputs : list Tensor) : M Tensor :=
  padding <- get_int_tuple attrs "padding" ;;
  strides <- get_int_tuple attrs "strides" ;;
  dilation <- get_int_tuple attrs "dilation" ;;
  groups <- get_int attrs "groups" ;;
  layout <- attrs_getitem attrs "layout" ;;
  py_assert (bool_decide (layout = NCHW))
    (Some "only support nchw for now") ;;
  py_assert (bool_decide (dilation = [1; 1]))
    (Some "not support dilate now") ;;
  py_assert (groups =? 1) (Some "only support groups == 1 for now") ;;
  data <- getitem inputs 0 ;;
  kernel <- getitem inputs 1 ;;
  out <- call (nn_conv2d_transpose_nchw data kernel strides padding) ;;
  use_bias <- get_bool attrs "use_bias" ;;
  out <- (if use_bias then
            bias <- getitem inputs 2 ;;
            bias <- call (expand_dims bias 1 2) ;;
            call (broadcast_add out bias)
          else ret out) ;;
  output_padding <- get_int_tuple attrs "output_padding" ;;
  op0 <- getitem output_padding 0 ;;
  op1 <- getitem output_padding 1 ;;
  call (nn_pad out [0; 0; 0; 0] [0; 0; op0; op1]).

End Compute.

(** ** Schedule lowering *)

Section ScheduleLowering.
Context `{TensorLib}.

(** [schedule_conv2d], nn.py lines 111-121.  The attributes are read
    before the target scope is entered; the template is chosen inside. *)
Definition schedule_conv2d (attrs : AttrDict) (outs : list Tensor)
    (target : string) : M Schedule :=
  groups <- get_int attrs "groups" ;;
  layout <- attrs_getitem attrs "layout" ;;
  with_target target
    (if (groups =? 1) && bool_decide (layout = NCHW) then
       request (generic_schedule_conv2d_nchw outs)
     else if (groups =? 1) && bool_decide (layout = NHWC) then
       request (generic_schedule_conv2d_nhwc outs)
     else
       request (generic_schedule_depthwise_conv2d_nchw outs)).

End ScheduleLowering.

(** ** The operator registry *)

(** Modelled from the spec: the pattern enumeration and the registry are
    defined in the registry module, which nn.py imports. *)
Inductive OpPattern : Type :=
| ELEMWISE
| BROADCAST
| INJECTIVE
| OUT_ELEMWISE_FUSABLE
| OPAQUE.

#[global] Instance OpPattern_eq_dec : EqDecision OpPattern.
Proof. solve_decision. Defined.

(** The callables nn.py registers, by name. *)
Inductive Callable : Type :=
| fschedule_broadcast
| fschedule_injective
| py_schedule_softmax
| py_schedule_log_softmax
| py_compute_dense
| py_schedule_dense
| py_compute_conv2d
| py_schedule_conv2d
| py_alter_conv2d_layout
| py_compute_contrib_conv2d_NCHWc
| py_schedule_contrib_conv2d_NCHWc
| py_compute_conv2d_transpose
| py_schedule_conv2d_transpose
| py_schedule_max_pool2d
| py_schedule_avg_pool2d
| py_schedule_global_max_pool2d
| py_schedule_global_avg_pool2d
| py_schedule_upsampling
| py_compute_lrn
| py_schedule_lrn
| py_compute_l2_normalize
| py_schedule_l2_normalize.

Record RegistryEntry : Type := mkEntry {
  fcompute : option Callable;
  fschedule : option Callable;
  falter_op_layout : option Callable;
  pattern : option OpPattern
}.

Abbreviation Registry := (gmap string RegistryEntry).

Definition entry (reg : Registry) (name : string) : RegistryEntry :=
  default (mkEntry None None None None) (reg !! name).

(** Modelled from the spec: the four registration functions of the registry
    module.  Each creates the entry if need be and sets one slot, leaving the
    other three as they were; a later registration of the same slot wins. *)
Definition register_compute (name : string) (f : Callable) (reg : Registry)
  : Registry :=
  let e := entry reg name in
  <[name := mkEntry (Some f) (fschedule e) (falter_op_layout e) (pattern e)]>
    reg.

(** Modelled from the spec: [reg.register_schedule]. *)
Definition register_schedule (name : string) (f : Callable) (reg : Registry)
  : Registry :=
  let e := entry reg name in
  <[name := mkEntry (fcompute e) (Some f) (falter_op_layout e) (pattern e)]>
    reg.

(** Modelled from the spec: [reg.register_alter_op_layout]. *)
Definition register_alter_op_layout (name : string) (f : Callable)
    (reg : Registry) : Registry :=
  let e := entry reg name in
  <[name := mkEntry (fcompute e) (fschedule e) (Some f) (pattern e)]> reg.

(** Modelled from the spec: [reg.register_pattern]. *)
Definition register_pattern (name : string) (p : OpPattern) (reg : Registry)
  : Registry :=
  let e := entry reg name in
  <[name := mkEntry (fcompute e) (fschedule e) (falter_op_layout e) (Some p)]>
    reg.

(** The pattern registered for [name], if any. *)
Definition pattern_of (reg : Registry) (name : string) : option OpPattern :=
  reg !! name ≫= pattern.

(** The registrations of nn.py, in the order the module runs them. *)
Definition nn_registrations : list (Registry → Registry) := [
  register_schedule "relu" fschedule_broadcast;
  register_pattern "relu" ELEMWISE;
  register_schedule "leaky_relu" fschedule_broadcast;
  register_pattern "leaky_relu" ELEMWISE;
  register_schedule "prelu" fschedule_broadcast;
  register_pattern "prelu" BROADCAST;
  register_schedule "flatten" fschedule_broadcast;
  register_pattern "flatten" INJECTIVE;
  register_schedule "pad" fschedule_broadcast;
  register_pattern "pad" INJECTIVE;
  register_schedule "__layout_transform__" fschedule_injective;
  register_pattern "__layout_transform__" INJECTIVE;
  register_schedule "softmax" py_schedule_softmax;
  register_pattern "softmax" OPAQUE;
  register_schedule "log_softmax" py_schedule_log_softmax;
  register_pattern "log_softmax" OPAQUE;
  register_compute "dense" py_compute_dense;
  register_schedule "dense" py_schedule_dense;
  register_pattern "dense" OUT_ELEMWISE_FUSABLE;
  register_compute "conv2d" py_compute_conv2d;
  register_schedule "conv2d" py_schedule_conv2d;
  register_alter_op_layout "conv2d" py_alter_conv2d_layout;
  register_pattern "conv2d" OUT_ELEMWISE_FUSABLE;
  register_compute "_contrib_conv2d_NCHWc" py_compute_contrib_conv2d_NCHWc;
  register_schedule "_contrib_conv2d_NCHWc" py_schedule_contrib_conv2d_NCHWc;
  register_pattern "_contrib_conv2d_NCHWc" OUT_ELEMWISE_FUSABLE;
  register_compute "conv2d_transpose" py_compute_conv2d_transpose;
  register_schedule "conv2d_transpose" py_schedule_conv2d_transpose;
  register_pattern "conv2d_transpose" OUT_ELEMWISE_FUSABLE;
  register_schedule "max_pool2d" py_schedule_max_pool2d;
  register_pattern "max_pool2d" OUT_ELEMWISE_FUSABLE;
  register_schedule "avg_pool2d" py_schedule_avg_pool2d;
  register_pattern "avg_pool2d" OUT_ELEMWISE_FUSABLE;
  register_schedule "global_max_pool2d" py_schedule_global_max_pool2d;
  register_pattern "global_max_pool2d" OUT_ELEMWISE_FUSABLE;
  register_schedule "global_avg_pool2d" py_schedule_global_avg_pool2d;
  register_pattern "global_avg_pool2d" OUT_ELEMWISE_FUSABLE;
  register_schedule "upsampling" py_schedule_upsampling;
  register_pattern "upsampling" INJECTIVE;
  register_compute "lrn" py_compute_lrn;
  register_schedule "lrn" py_schedule_lrn;
  register_pattern "lrn" OPAQUE;
  register_compute "l2_normalize" py_compute_l2_normalize;
  register_schedule "l2_normalize" py_schedule_l2_normalize;
  register_pattern "l2_normalize" OUT_ELEMWISE_FUSABLE
].

(** The registry once nn.py has been imported into [reg]. *)
Definition import_nn (reg : Registry) : Registry :=
  foldl (λ r f, f r) reg nn_registrations.

Definition nn_registry : Registry := import_nn ∅.

(** The classification table the fusion pass is documented against. *)
Definition classification_table : list (string * OpPattern) := [
  ("relu", ELEMWISE); ("leaky_relu", ELEMWISE);
  ("prelu", BROADCAST);
  ("flatten", INJECTIVE); ("pad", INJECTIVE);
  ("__layout_transform__", INJECTIVE); ("upsampling", INJECTIVE);
  ("dense", OUT_ELEMWISE_FUSABLE); ("conv2d", OUT_ELEMWISE_FUSABLE);
  ("_contrib_conv2d_NCHWc", OUT_ELEMWISE_FUSABLE);
  ("conv2d_transpose", OUT_ELEMWISE_FUSABLE);
  ("max_pool2d", OUT_ELEMWISE_FUSABLE); ("avg_pool2d", OUT_ELEMWISE_FUSABLE);
  ("global_max_pool2d", OUT_ELEMWISE_FUSABLE);
  ("global_avg_pool2d", OUT_ELEMWISE_FUSABLE);
  ("l2_normalize", OUT_ELEMWISE_FUSABLE);
  ("softmax", OPAQUE); ("log_softmax", OPAQUE); ("lrn", OPAQUE)
].

Definition classify (name : string) : option OpPattern :=
  (list_to_map classification_table : gmap string OpPattern) !! name.

(** ** What a call did *)

Section Observations.
Context `{TensorLib}.

(** The six attributes [compute_conv2d] reads first hold values of the
    types it asks for. *)
Definition conv2d_attrs (attrs : AttrDict) (padding strides dilation : list Z)
    (groups channels : Z) (layout : attr_value) : Prop :=
  attrs !! "padding" = Some (VTuple padding) ∧
  attrs !! "strides" = Some (VTuple strides) ∧
  attrs !! "dilation" = Some (VTuple dilation) ∧
  attrs !! "groups" = Some (VInt groups) ∧
  attrs !! "channels" = Some (VInt channels) ∧
  attrs !! "layout" = Some layout.

(** The attributes of a [conv2d_transpose] call in the one configuration
    the operator supports. *)
Definition conv2d_transpose_attrs (attrs : AttrDict)
    (padding strides : list Z) (use_bias : bool) (output_padding : list Z)
  : Prop :=
  attrs !! "padding" = Some (VTuple padding) ∧
  attrs !! "strides" = Some (VTuple strides) ∧
  attrs !! "dilation" = Some (VTuple [1; 1]) ∧
  attrs !! "groups" = Some (VInt 1) ∧
  attrs !! "layout" = Some NCHW ∧
  attrs !! "use_bias" = Some (VBool use_bias) ∧
  attrs !! "output_padding" = Some (VTuple output_padding).

(** A convolution primitive, dense or depthwise, called on [kernel]. *)
Definition conv_on_kernel (kernel : Tensor) (ev : Event) : Prop :=
  match ev with
  | Prim (nn_conv2d _ k _ _ _) => k = kernel
  | Prim (nn_depthwise_conv2d_nchw _ k _ _) => k = kernel
  | _ => False
  end.

(** One of the two calls of the bias step. *)
Definition bias_step (ev : Event) : Prop :=
  match ev with
  | Prim (expand_dims _ _ _) => True
  | Prim (broadcast_add _ _) => True
  | _ => False
  end.

(** A call of the depthwise convolution. *)
Definition depthwise_call (ev : Event) : Prop :=
  match ev with
  | Prim (nn_depthwise_conv2d_nchw _ _ _ _) => True
  | _ => False
  end.

(** Whatever [m] adds to the trace comes after what was there, and every
    event it adds satisfies [P]. *)
Definition emits {A} (P : Event → Prop) (m : M A) : Prop :=
  ∀ st, ∃ evs, trace (m st).1 = trace st ++ evs ∧ Forall P evs.

(** [m] never fails on an assertion. *)
Definition never_asserts {A} (m : M A) : Prop :=
  ∀ st msg, (m st).2 ≠ inl (AssertionError msg).

End Observations.

(** ** Zero insertion and zero padding *)

(** Modelled from the spec: the dilate and pad primitives belong to the
    tensor-expression library.  A tensor is its extents and its value at each
    index.  Dilation with stride [s] along an axis puts tap [k] at index
    [s * k] and zeros at the [s - 1] indices up to the next tap; padding
    shifts the data by [pad_before] and grows the extent by
    [pad_before + pad_after], with zeros outside the data. *)
Record NDArray : Type := mkND {
  dims : list Z;
  at_index : list Z → Z
}.

(** Modelled from the spec: dilation by zero insertion. *)
Definition nd_dilate (data : NDArray) (strides : list Z) : NDArray :=
  mkND (zip_with (λ d s, (d - 1) * s + 1) (dims data) strides)
       (λ idx,
          if forallb (λ p, p.1 mod p.2 =? 0) (zip idx strides)
          then at_index data (zip_with Z.div idx strides)
          else 0).

(** Modelled from the spec: zero padding, [pad_before] ahead of the data and
    [pad_after] past it. *)
Definition nd_pad (data : NDArray) (pad_before pad_after : list Z)
  : NDArray :=
  mkND (zip_with Z.add (zip_with Z.add (dims data) pad_before) pad_after)
       (λ idx,
          if forallb (λ p, (p.1.2 <=? p.1.1) && (p.1.1 <? p.1.2 + p.2))
               (zip (zip idx pad_before) (dims data))
          then at_index data (zip_with Z.sub idx pad_before)
          else 0).

(** ** A recording library, for the examples *)

(** A tensor is either an input of the graph, with its extents, or the
    record of the call that made it.  No shape inference is run on the
    latter: only inputs report extents. *)
#[warnings="-register-all"]
Inductive SymTensor : Type :=
| placeholder (name : string) (extents : list Z)
| made_by (c : TopiCall SymTensor).

Inductive SymSchedule : Type :=
| scheduled (current : option string) (s : GenericSchedule SymTensor).

Definition SymLib : TensorLib := {|
  Tensor := SymTensor;
  Expr := Z;
  Target := string;
  Schedule := SymSchedule;
  shape := λ t, match t with placeholder _ e => e | made_by _ => [] end;
  get_const_int := λ e, e;
  topi := made_by;
  tvm_target_create := λ target, target;
  topi_generic := scheduled
|}.

Definition st0 : @State SymLib := @mkState SymLib [] [].

Definition sample_data : SymTensor := placeholder "data" [1; 4; 8; 8].
Definition sample_weight : SymTensor := placeholder "weight" [4; 1; 3; 3].
Definition sample_bias : SymTensor := placeholder "bias" [4].

(** A one-channel image, the same extents read as NCHW. *)
Definition gray_data : SymTensor := placeholder "data" [1; 1; 8; 8].
Definition gray_weight : SymTensor := placeholder "weight" [1; 1; 3; 3].

(** An NHWC image of height 1 with three channels. *)
Definition row_data : SymTensor := placeholder "data" [2; 1; 8; 3].
Definition row_weight : SymTensor := placeholder "weight" [1; 3; 3; 1].

(** The attributes of a conv2d node. *)
Definition conv2d_node (dilation : list Z) (groups channels : Z)
    (layout : string) (use_bias : bool) : AttrDict :=
  list_to_map [
    ("padding", VTuple [0; 0]); ("strides", VTuple [1; 1]);
    ("dilation", VTuple dilation); ("groups", VInt groups);
    ("channels", VInt channels); ("layout", VStr layout);
    ("use_bias", VBool use_bias)
  ].

Definition conv2d_transpose_node (use_bias : bool) (output_padding : list Z)
  : AttrDict :=
  list_to_map [
    ("padding", VTuple [0; 0]); ("strides", VTuple [2; 2]);
    ("dilation", VTuple [1; 1]); ("groups", VInt 1);
    ("channels", VInt 4); ("layout", VStr "NCHW");
    ("use_bias", VBool use_bias); ("output_padding", VTuple output_padding)
  ].

(** ** The other schedule functions *)

Section MoreSchedules.
Context `{TensorLib}.

(** [schedule_softmax], nn.py lines 40-44. *)
Definition schedule_softmax (_ : AttrDict) (outs : list Tensor)
    (target : string) : M Schedule :=
  with_target target (request (generic_schedule_softmax outs)).

(** [schedule_log_softmax], nn.py lines 50-54. *)
Definition schedule_log_softmax (_ : AttrDict) (outs : list Tensor)
    (target : string) : M Schedule :=
  with_target target (request (generic_schedule_softmax outs)).

(** [schedule_dense], nn.py lines 68-72. *)
Definition schedule_dense (_ : AttrDict) (outs : list Tensor)
    (target : string) : M Schedule :=
  with_target target (request (generic_schedule_dense outs)).

(** [schedule_contrib_conv2d_NCHWc], nn.py lines 152-164.  The five
    attributes are read before the scope is entered; the failure on groups is
    raised inside it. *)
Definition schedule_contrib_conv2d_NCHWc (attrs : AttrDict)
    (outs : list Tensor) (target : string) : M Schedule :=
  groups <- get_int attrs "groups" ;;
  k <- get_int_tuple attrs "kernel_size" ;;
  k <- unpack2 k ;;
  let '(kh, kw) := k in
  oc <- get_int attrs "channels" ;;
  padding <- get_int_tuple attrs "padding" ;;
  strides <- get_int_tuple attrs "strides" ;;
  with_target target
    (if groups =? 1 then
       request (generic_schedule_conv2d_NCHWc oc (kh, kw) strides padding
                  outs)
     else raise (ValueError "not support group number > 1 for now")).

(** [schedule_conv2d_transpose], nn.py lines 190-194. *)
Definition schedule_conv2d_transpose (_ : AttrDict) (outs : list Tensor)
    (target : string) : M Schedule :=
  with_target target (request (generic_schedule_conv2d_transpose_nchw outs)).

(** [schedule_max_pool2d], nn.py lines 200-204. *)
Definition schedule_max_pool2d (_ : AttrDict) (outs : list Tensor)
    (target : string) : M Schedule :=
  with_target target (request (generic_schedule_pool outs)).

(** [schedule_avg_pool2d], nn.py lines 210-214. *)
Definition schedule_avg_pool2d (_ : AttrDict) (outs : list Tensor)
    (target : string) : M Schedule :=
  with_target target (request (generic_schedule_pool outs)).

(** [schedule_global_max_pool2d], nn.py lines 220-224. *)
Definition schedule_global_max_pool2d (_ : AttrDict) (outs : list Tensor)
    (target : string) : M Schedule :=
  with_target target (request (generic_schedule_global_pool outs)).

(** [schedule_global_avg_pool2d], nn.py lines 230-234. *)
Definition schedule_global_avg_pool2d (_ : AttrDict) (outs : list Tensor)
    (target : string) : M Schedule :=
  with_target target (request (generic_schedule_global_pool outs)).

(** [schedule_upsampling], nn.py lines 239-243. *)
Definition schedule_upsampling (_ : AttrDict) (outs : list Tensor)
    (target : string) : M Schedule :=
  with_target target (request (generic_schedule_injective outs)).

(** [schedule_lrn], nn.py lines 257-261. *)
Definition schedule_lrn (_ : AttrDict) (outs : list Tensor)
    (target : string) : M Schedule :=
  with_target target (request (generic_schedule_lrn outs)).

(** [schedule_l2_normalize], nn.py lines 272-276. *)
Definition schedule_l2_normalize (_ : AttrDict) (outs : list Tensor)
    (target : string) : M Schedule :=
  with_target target (request (generic_schedule_l2_normalize outs)).

(** The schedule functions nn.py defines, by the name they are registered
    under. *)
Definition nn_schedule_functions
  : list (string * (AttrDict → list Tensor → string → M Schedule)) := [
  ("softmax", schedule_softmax);
  ("log_softmax", schedule_log_softmax);
  ("dense", schedule_dense);
  ("conv2d", schedule_conv2d);
  ("_contrib_conv2d_NCHWc", schedule_contrib_conv2d_NCHWc);
  ("conv2d_transpose", schedule_conv2d_transpose);
  ("max_pool2d", schedule_max_pool2d);
  ("avg_pool2d", schedule_avg_pool2d);
  ("global_max_pool2d", schedule_global_max_pool2d);
  ("global_avg_pool2d", schedule_global_avg_pool2d);
  ("upsampling", schedule_upsampling);
  ("lrn", schedule_lrn);
  ("l2_normalize", schedule_l2_normalize)
].

(** The template that goes with a convolution call: the one the schedule of
    the same operator is expected to pick. *)
Definition template_for (c : TopiCall Tensor) (outs : list Tensor)
  : option (GenericSchedule Tensor) :=
  match c with
  | nn_conv2d _ _ _ _ layout =>
      if bool_decide (layout = NCHW) then
        Some (generic_schedule_conv2d_nchw outs)
      else if bool_decide (layout = NHWC) then
        Some (generic_schedule_conv2d_nhwc outs)
      else None
  | nn_depthwise_conv2d_nchw _ _ _ _ =>
      Some (generic_schedule_depthwise_conv2d_nchw outs)
  | nn_conv2d_NCHWc _ _ num_filter kernel_size strides padding =>
      Some (generic_schedule_conv2d_NCHWc num_filter kernel_size strides
              padding outs)
  | nn_conv2d_transpose_nchw _ _ _ _ =>
      Some (generic_schedule_conv2d_transpose_nchw outs)
  | _ => None
  end.

(** The outcome of a schedule function that requested [s] for [target] from
    state [st]. *)
Definition requested (target : string) (s : GenericSchedule Tensor)
    (st : State) : State * (exn + Schedule) :=
  (record (Sched (Some (tvm_target_create target)) s) st,
   inr (topi_generic (Some (tvm_target_create target)) s)).

(** [m] fails or returns, and leaves the state as it found it. *)
Definition reads_only {A} (m : M A) : Prop :=
  ∀ st, (∃ e, m st = (st, inl e)) ∨ ∃ a, m st = (st, inr a).

(** [m] either fails and leaves the state as it found it, or returns after
    exactly one request, made for [target]. *)
Definition one_request (target : string) (m : M Schedule) : Prop :=
  ∀ st, (∃ e, m st = (st, inl e)) ∨ ∃ s, m st = requested target s st.

End MoreSchedules.

(** The callable registered in each of the other three slots, if any. *)
Definition compute_of (reg : Registry) (name : string) : option Callable :=
  reg !! name ≫= fcompute.

Definition schedule_of (reg : Registry) (name : string) : option Callable :=
  reg !! name ≫= fschedule.

Definition alter_op_layout_of (reg : Registry) (name : string)
  : option Callable :=
  reg !! name ≫= falter_op_layout.

(** The six attributes [compute_contrib_conv2d_NCHWc] reads first hold values
    of the types it asks for, the kernel size being a pair. *)
Definition conv2d_NCHWc_attrs (attrs : AttrDict)
    (padding strides dilation : list Z) (kh kw groups channels : Z) : Prop :=
  attrs !! "padding" = Some (VTuple padding) ∧
  attrs !! "strides" = Some (VTuple strides) ∧
  attrs !! "dilation" = Some (VTuple dilation) ∧
  attrs !! "kernel_size" = Some (VTuple [kh; kw]) ∧
  attrs !! "groups" = Some (VInt groups) ∧
  attrs !! "channels" = Some (VInt channels).

(** The five attributes [compute_conv2d_transpose] reads first hold values of
    the types it asks for. *)
Definition conv2d_transpose_read (attrs : AttrDict)
    (padding strides dilation : list Z) (groups : Z) (layout : attr_value)
  : Prop :=
  attrs !! "padding" = Some (VTuple padding) ∧
  attrs !! "strides" = Some (VTuple strides) ∧
  attrs !! "dilation" = Some (VTuple dilation) ∧
  attrs !! "groups" = Some (VInt groups) ∧
  attrs !! "layout" = Some layout.

(** A NCHWc node and a dense node, for the examples. *)
Definition conv2d_NCHWc_node (dilation kernel_size : list Z) (groups : Z)
    (use_bias : bool) : AttrDict :=
  list_to_map [
    ("padding", VTuple [1; 1]); ("strides", VTuple [1; 1]);
    ("dilation", VTuple dilation); ("kernel_size", VTuple kernel_size);
    ("groups", VInt groups); ("channels", VInt 16);
    ("use_bias", VBool use_bias)
  ].

Definition dense_node (use_bias : bool) : AttrDict :=
  list_to_map [("units", VInt 10); ("use_bias", VBool use_bias)].

(** A data tensor with a single axis. *)
Definition flat_data : SymTensor := placeholder "data" [4].

(** ** Facts about the lowering monad and the accessors *)

Section MonadFacts.
Context `{TensorLib}.

Lemma bind_inr {A B} (m : M A) (k : A → M B) st st' a :
  m st = (st', inr a) → bind m k st = k a st'.
Proof. unfold bind. by intros ->. Qed.

Lemma bind_inl {A B} (m : M A) (k : A → M B) st st' e :
  m st = (st', inl e) → bind m k st = (st', inl e).
Proof. unfold bind. by intros ->. Qed.

Lemma getitem_Some {A} (seq : list A) i x st :
  seq !! i = Some x → getitem seq i st = (st, inr x).
Proof. unfold getitem. by intros ->. Qed.

Lemma attrs_getitem_Some attrs key v st :
  attrs !! key = Some v → attrs_getitem attrs key st = (st, inr v).
Proof. unfold attrs_getitem. by intros ->. Qed.

Lemma get_int_Some attrs key z st :
  attrs !! key = Some (VInt z) → get_int attrs key st = (st, inr z).
Proof. unfold get_int. by intros ->. Qed.

Lemma get_int_tuple_Some attrs key t st :
  attrs !! key = Some (VTuple t) → get_int_tuple attrs key st = (st, inr t).
Proof. unfold get_int_tuple. by intros ->. Qed.

Lemma get_bool_Some attrs key b st :
  attrs !! key = Some (VBool b) → get_bool attrs key st = (st, inr b).
Proof. unfold get_bool. by intros ->. Qed.

Lemma never_asserts_ret {A} (a : A) : never_asserts (ret a).
Proof. by intros st msg. Qed.

Lemma never_asserts_raise {A} (e : exn) :
  (∀ msg, e ≠ AssertionError msg) → never_asserts (@raise _ A e).
Proof. intros He st msg [=]. by eapply He. Qed.

Lemma never_asserts_bind {A B} (m : M A) (k : A → M B) :
  never_asserts m → (∀ a, never_asserts (k a)) → never_asserts (bind m k).
Proof.
  intros Hm Hk st msg. unfold bind.
  specialize (Hm st msg). destruct (m st) as [st' [e | a]]; [simpl in *; congruence|].
  apply Hk.
Qed.

Lemma never_asserts_call c : never_asserts (call c).
Proof. by intros st msg. Qed.

Lemma never_asserts_getitem {A} (seq : list A) i :
  never_asserts (getitem seq i).
Proof. intros st msg. unfold getitem. by destruct (seq !! i). Qed.

Lemma never_asserts_get_bool attrs key : never_asserts (get_bool attrs key).
Proof.
  intros st msg. unfold get_bool. by destruct (attrs !! key) as [[]|].
Qed.

Lemma never_asserts_unpack2 t : never_asserts (unpack2 t).
Proof. intros st msg. by destruct t as [|? [|? [|? ?]]]. Qed.

Lemma emits_ret {A} P (a : A) : emits P (ret a).
Proof. intros st. exists []. by rewrite app_nil_r. Qed.

Lemma emits_raise {A} P (e : exn) : emits P (@raise _ A e).
Proof. intros st. exists []. by rewrite app_nil_r. Qed.

Lemma emits_call (P : Event → Prop) c : P (Prim c) → emits P (call c).
Proof. intros Hc st. exists [Prim c]. split; [done|]. by constructor. Qed.

Lemma emits_bind {A B} P (m : M A) (k : A → M B) :
  emits P m → (∀ a, emits P (k a)) → emits P (bind m k).
Proof.
  intros Hm Hk st. unfold bind.
  destruct (Hm st) as (evs & Ht & Hevs).
  destruct (m st) as [st' [e | a]]; [by exists evs|].
  destruct (Hk a st') as (evs' & Ht' & Hevs').
  exists (evs ++ evs'). split.
  - simpl in Ht. by rewrite Ht', Ht, app_assoc.
  - by apply Forall_app.
Qed.

Lemma emits_getitem {A} P (seq : list A) i : emits P (getitem seq i).
Proof.
  unfold getitem. destruct (seq !! i); [apply emits_ret|apply emits_raise].
Qed.

Lemma emits_get_bool P attrs key : emits P (get_bool attrs key).
Proof.
  unfold get_bool.
  destruct (attrs !! key) as [[]|]; first [apply emits_ret|apply emits_raise].
Qed.

Lemma trace_record ev st : trace (record ev st) = trace st ++ [ev].
Proof. done. Qed.

End MonadFacts.

(** Runs the attribute reads and subscripts whose outcome the context fixes. *)
Ltac mstep :=
  repeat first
    [ erewrite (bind_inr (get_int_tuple _ _)) by (by apply get_int_tuple_Some)
    | erewrite (bind_inr (get_int _ _)) by (by apply get_int_Some)
    | erewrite (bind_inr (get_bool _ _)) by (by apply get_bool_Some)
    | erewrite (bind_inr (attrs_getitem _ _)) by (by apply attrs_getitem_Some)
    | erewrite (bind_inr (getitem _ _)) by (by apply getitem_Some)
    | erewrite (bind_inr (call _)) by reflexivity
    | erewrite (bind_inr (ret _)) by reflexivity ].

(** ** conv2d: the steps of a call *)

Section Conv2d.
Context `{TensorLib}.

(** With the attributes read, the call is the layout check followed by the
    three steps. *)
Lemma compute_conv2d_read attrs inputs st padding strides dilation groups
    channels layout :
  conv2d_attrs attrs padding strides dilation groups channels layout →
  compute_conv2d attrs inputs st =
    (py_assert (bool_decide (layout = NCHW) || bool_decide (layout = NHWC))
       None ;;
     kernel <- conv2d_kernel layout dilation inputs ;;
     out <- conv2d_dispatch groups channels layout strides padding inputs
              kernel ;;
     conv2d_bias attrs layout inputs out) st.
Proof.
  intros (Hp & Hs & Hd & Hg & Hc & Hl).
  unfold compute_conv2d. by mstep.
Qed.

Lemma compute_conv2d_checked attrs inputs st padding strides dilation groups
    channels layout :
  conv2d_attrs attrs padding strides dilation groups channels layout →
  layout = NCHW ∨ layout = NHWC →
  compute_conv2d attrs inputs st =
    (kernel <- conv2d_kernel layout dilation inputs ;;
     out <- conv2d_dispatch groups channels layout strides padding inputs
              kernel ;;
     conv2d_bias attrs layout inputs out) st.
Proof.
  intros Ha Hl. rewrite (compute_conv2d_read _ _ _ _ _ _ _ _ _ Ha).
  assert (bool_decide (layout = NCHW) || bool_decide (layout = NHWC) = true)
    as ->; [|done].
  destruct Hl as [-> | ->]; by vm_compute.
Qed.

(** The kernel step, case by case. *)
Lemma conv2d_kernel_nonpositive layout dh dw inputs st :
  dh < 1 ∨ dw < 1 →
  conv2d_kernel layout [dh; dw] inputs st =
    (st, inl (ValueError "dilation should be positive value")).
Proof.
  intros Hd. unfold conv2d_kernel, unpack2. mstep. cbv beta iota zeta.
  assert ((dh <? 1) || (dw <? 1) = true) as ->; [|done].
  apply orb_true_iff. destruct Hd; [left | right]; by apply Z.ltb_lt.
Qed.

Lemma conv2d_kernel_unit layout inputs st :
  conv2d_kernel layout [1; 1] inputs st = getitem inputs 1 st.
Proof. done. Qed.

Lemma conv2d_kernel_dilated layout dh dw inputs st :
  1 ≤ dh → 1 ≤ dw → (dh, dw) ≠ (1, 1) →
  conv2d_kernel layout [dh; dw] inputs st =
    (w <- getitem inputs 1 ;;
     call (nn_dilate w (if bool_decide (layout = NCHW)
                        then [1; 1; dh; dw] else [1; dh; dw; 1]))) st.
Proof.
  intros Hh Hw Hne. unfold conv2d_kernel, unpack2. mstep.
  cbv beta iota zeta.
  assert ((dh <? 1) || (dw <? 1) = false) as ->.
  { apply orb_false_iff. split; apply Z.ltb_ge; lia. }
  rewrite bool_decide_eq_false_2; [|congruence].
  by case_bool_decide.
Qed.

End Conv2d.

Section Conv2dChecks.
Context `{TensorLib}.

Lemma never_asserts_conv2d_kernel layout dilation inputs :
  never_asserts (conv2d_kernel layout dilation inputs).
Proof.
  unfold conv2d_kernel.
  apply never_asserts_bind; [apply never_asserts_unpack2|].
  intros [dh dw]. repeat case_match;
    repeat first [ apply never_asserts_getitem | apply never_asserts_call
                 | by apply never_asserts_raise
                 | apply never_asserts_bind; [|intros ?] ].
Qed.

Lemma never_asserts_conv2d_dispatch groups channels layout strides padding
    inputs kernel :
  never_asserts
    (conv2d_dispatch groups channels layout strides padding inputs kernel).
Proof.
  unfold conv2d_dispatch. repeat case_match;
    repeat first [ apply never_asserts_getitem | apply never_asserts_call
                 | by apply never_asserts_raise
                 | apply never_asserts_bind; [|intros ?]
                 | case_match ].
Qed.

Lemma never_asserts_conv2d_bias attrs layout inputs out :
  never_asserts (conv2d_bias attrs layout inputs out).
Proof.
  unfold conv2d_bias.
  apply never_asserts_bind; [apply never_asserts_get_bool|].
  intros [];
    repeat first [ apply never_asserts_getitem | apply never_asserts_call
                 | apply never_asserts_ret
                 | apply never_asserts_bind; [|intros ?] ].
Qed.

(** C8. A conv2d call whose layout is a string other than "NCHW" and
    "NHWC" fails on the layout assertion, before anything else is done;
    with one of the two the call never ends in an assertion failure. *)
Theorem conv2d_layout_check attrs inputs st padding strides dilation groups
    channels (layout : string) :
  conv2d_attrs attrs padding strides dilation groups channels
    (VStr layout) →
  (layout ≠ "NCHW" → layout ≠ "NHWC" →
     compute_conv2d attrs inputs st = (st, inl (AssertionError None)))
  ∧ (layout = "NCHW" ∨ layout = "NHWC" →
     ∀ msg, (compute_conv2d attrs inputs st).2 ≠ inl (AssertionError msg)).
Proof.
  intros Ha. split.
  - intros Hn1 Hn2. rewrite (compute_conv2d_read _ _ _ _ _ _ _ _ _ Ha).
    unfold NCHW, NHWC.
    rewrite !bool_decide_eq_false_2 by congruence. done.
  - intros Hl msg.
    rewrite (compute_conv2d_checked _ _ _ _ _ _ _ _ _ Ha)
      by (unfold NCHW, NHWC; destruct Hl; subst; auto).
    revert st msg. fold (never_asserts (A:=Tensor)).
    apply never_asserts_bind; [apply never_asserts_conv2d_kernel|].
    intros kernel.
    apply never_asserts_bind; [apply never_asserts_conv2d_dispatch|].
    intros out. apply never_asserts_conv2d_bias.
Qed.

(** C3, as amended. A conv2d call with a supported layout and a dilation
    component below 1 fails with the [ValueError] of the dilation check,
    and the state it leaves is the state it was given: no primitive of the
    tensor-expression library has been called. *)
Theorem conv2d_nonpositive_dilation attrs inputs st padding strides dh dw
    groups channels layout :
  conv2d_attrs attrs padding strides [dh; dw] groups channels layout →
  layout = NCHW ∨ layout = NHWC →
  dh < 1 ∨ dw < 1 →
  compute_conv2d attrs inputs st =
    (st, inl (ValueError "dilation should be positive value"))
  ∧ trace (compute_conv2d attrs inputs st).1 = trace st.
Proof.
  intros Ha Hl Hd.
  rewrite (compute_conv2d_checked _ _ _ _ _ _ _ _ _ Ha Hl).
  erewrite bind_inl by (by apply conv2d_kernel_nonpositive). done.
Qed.

End Conv2dChecks.

(** ** conv2d: dilation and grouping *)

Section Conv2dDispatch.
Context `{TensorLib}.

Lemma conv2d_dispatch_dense channels layout strides padding inputs kernel
    data st :
  inputs !! 0%nat = Some data →
  conv2d_dispatch 1 channels layout strides padding inputs kernel st =
    call (nn_conv2d data kernel strides padding layout) st.
Proof. intros Hd. unfold conv2d_dispatch. simpl. by mstep. Qed.

Lemma conv2d_dispatch_depthwise groups channels layout strides padding
    inputs kernel data e st :
  groups ≠ 1 →
  inputs !! 0%nat = Some data →
  shape data !! 1%nat = Some e →
  groups = get_const_int e → groups = channels →
  conv2d_dispatch groups channels layout strides padding inputs kernel st =
    call (nn_depthwise_conv2d_nchw data kernel strides padding) st.
Proof.
  intros Hg Hd He Hc Hch. unfold conv2d_dispatch.
  apply Z.eqb_neq in Hg as ->. mstep.
  rewrite <- Hc, <- Hch, Z.eqb_refl. simpl. by mstep.
Qed.

Lemma conv2d_dispatch_unsupported groups channels layout strides padding
    inputs kernel data e st :
  groups ≠ 1 →
  inputs !! 0%nat = Some data →
  shape data !! 1%nat = Some e →
  ¬ (groups = get_const_int e ∧ groups = channels) →
  conv2d_dispatch groups channels layout strides padding inputs kernel st =
    (st, inl (ValueError "not support arbitrary group number for now")).
Proof.
  intros Hg Hd He Hn. unfold conv2d_dispatch.
  apply Z.eqb_neq in Hg as ->. mstep.
  assert ((groups =? get_const_int e) && (groups =? channels) = false)
    as ->; [|done].
  apply andb_false_iff.
  destruct (Z.eqb_spec groups (get_const_int e)); [|by left].
  destruct (Z.eqb_spec groups channels); [|by right].
  by destruct Hn.
Qed.

(** The dispatch adds at most a convolution on the kernel it is given. *)
Lemma conv2d_dispatch_emits groups channels layout strides padding inputs
    kernel :
  emits (conv_on_kernel kernel)
    (conv2d_dispatch groups channels layout strides padding inputs kernel).
Proof.
  unfold conv2d_dispatch. repeat case_match;
    repeat first [ apply emits_getitem | by apply emits_call
                 | apply emits_raise
                 | apply emits_bind; [|intros ?]
                 | case_match ].
Qed.

(** The bias step only ever adds its own two calls to the trace. *)
Lemma conv2d_bias_emits attrs layout inputs out :
  emits bias_step (conv2d_bias attrs layout inputs out).
Proof.
  unfold conv2d_bias.
  apply emits_bind; [apply emits_get_bool|].
  intros [];
    repeat first [ apply emits_getitem | by apply emits_call
                 | apply emits_ret
                 | apply emits_bind; [|intros ?] ].
Qed.

Lemma emits_weaken {A} (P Q : Event → Prop) (m : M A) :
  (∀ ev, P ev → Q ev) → emits P m → emits Q m.
Proof.
  intros HPQ Hm st. destruct (Hm st) as (evs & Ht & Hevs).
  exists evs. split; [done|]. eapply Forall_impl; eauto.
Qed.

(** What a call that has passed the layout and the dilation check and then
    reaches a convolution primitive [c] amounts to. *)
Lemma compute_conv2d_after_call attrs inputs st st1 padding strides dilation
    groups channels layout kernel c :
  conv2d_attrs attrs padding strides dilation groups channels layout →
  layout = NCHW ∨ layout = NHWC →
  conv2d_kernel layout dilation inputs st = (st1, inr kernel) →
  conv2d_dispatch groups channels layout strides padding inputs kernel st1 =
    call c st1 →
  compute_conv2d attrs inputs st =
    conv2d_bias attrs layout inputs (topi c) (record (Prim c) st1)
  ∧ ∃ rest, trace (compute_conv2d attrs inputs st).1 =
              trace st1 ++ Prim c :: rest ∧ Forall bias_step rest.
Proof.
  intros Ha Hl Hk Hc.
  assert (compute_conv2d attrs inputs st =
          conv2d_bias attrs layout inputs (topi c) (record (Prim c) st1))
    as Heq.
  { rewrite (compute_conv2d_checked _ _ _ _ _ _ _ _ _ Ha Hl).
    rewrite (bind_inr _ _ _ _ _ Hk).
    by rewrite (bind_inr _ _ _ _ _ Hc). }
  split; [done|]. rewrite Heq.
  destruct (conv2d_bias_emits attrs layout inputs (topi c)
              (record (Prim c) st1)) as (rest & -> & Hrest).
  exists rest. split; [|done].
  by rewrite trace_record, <- app_assoc.
Qed.

(** C1, as amended. For a conv2d call that has passed the layout and the
    dilation check, with [kernel] the kernel these left (the second input,
    dilated or not): with groups = 1 the dense convolution is called on it;
    with groups other than 1 and equal to both the extent of axis 1 of the
    data and the channels attribute the depthwise convolution is called on
    it; with any other groups the call fails with the [ValueError] of the
    grouping check. *)
Theorem conv2d_group_dispatch attrs inputs st st1 padding strides dilation
    groups channels layout data kernel :
  conv2d_attrs attrs padding strides dilation groups channels layout →
  layout = NCHW ∨ layout = NHWC →
  conv2d_kernel layout dilation inputs st = (st1, inr kernel) →
  inputs !! 0%nat = Some data →
  (groups = 1 →
     let c := nn_conv2d data kernel strides padding layout in
     compute_conv2d attrs inputs st =
       conv2d_bias attrs layout inputs (topi c) (record (Prim c) st1)
     ∧ ∃ rest, trace (compute_conv2d attrs inputs st).1 =
                 trace st1 ++ Prim c :: rest ∧ Forall bias_step rest)
  ∧ (∀ e, groups ≠ 1 → shape data !! 1%nat = Some e →
       groups = get_const_int e → groups = channels →
       let c := nn_depthwise_conv2d_nchw data kernel strides padding in
       compute_conv2d attrs inputs st =
         conv2d_bias attrs layout inputs (topi c) (record (Prim c) st1)
       ∧ ∃ rest, trace (compute_conv2d attrs inputs st).1 =
                   trace st1 ++ Prim c :: rest ∧ Forall bias_step rest)
  ∧ (∀ e, groups ≠ 1 → shape data !! 1%nat = Some e →
       ¬ (groups = get_const_int e ∧ groups = channels) →
       compute_conv2d attrs inputs st =
         (st1,
          inl (ValueError "not support arbitrary group number for now"))).
Proof.
  intros Ha Hl Hk Hd. split; [|split].
  - intros -> c. eapply compute_conv2d_after_call; eauto.
    by apply conv2d_dispatch_dense.
  - intros e Hg He Hc Hch c. eapply compute_conv2d_after_call; eauto.
    by eapply conv2d_dispatch_depthwise.
  - intros e Hg He Hn.
    rewrite (compute_conv2d_checked _ _ _ _ _ _ _ _ _ Ha Hl).
    rewrite (bind_inr _ _ _ _ _ Hk).
    erewrite bind_inl; [done|]. by eapply conv2d_dispatch_unsupported.
Qed.

(** C9, as amended. For a conv2d call with layout "NHWC" that has passed
    the dilation check: with groups other than 1 and equal to both the
    extent of axis 1 of the data and the channels attribute, the
    depthwise-NCHW convolution is called; the layout plays no part in the
    choice once groups is not 1. *)
Theorem conv2d_depthwise_ignores_layout attrs inputs st st1 padding strides
    dilation groups channels data kernel e :
  conv2d_attrs attrs padding strides dilation groups channels NHWC →
  conv2d_kernel NHWC dilation inputs st = (st1, inr kernel) →
  inputs !! 0%nat = Some data →
  shape data !! 1%nat = Some e →
  groups ≠ 1 →
  groups = get_const_int e → groups = channels →
  (let c := nn_depthwise_conv2d_nchw data kernel strides padding in
   ∃ rest, trace (compute_conv2d attrs inputs st).1 =
             trace st1 ++ Prim c :: rest ∧ Forall bias_step rest)
  ∧ (∀ layout k s,
       conv2d_dispatch groups channels layout strides padding inputs k s =
       conv2d_dispatch groups channels NHWC strides padding inputs k s).
Proof.
  intros Ha Hk Hd He Hg Hc Hch. split.
  - intros c.
    eapply (compute_conv2d_after_call attrs inputs st st1); eauto.
    by eapply conv2d_dispatch_depthwise.
  - intros layout k s. unfold conv2d_dispatch.
    by apply Z.eqb_neq in Hg as ->.
Qed.

End Conv2dDispatch.

Section Conv2dKernel.
Context `{TensorLib}.

(** Once the kernel step has returned [kernel], all that follows is at
    most a convolution on [kernel] and the bias step. *)
Lemma compute_conv2d_after_kernel attrs inputs st st1 padding strides
    dilation groups channels layout kernel :
  conv2d_attrs attrs padding strides dilation groups channels layout →
  layout = NCHW ∨ layout = NHWC →
  conv2d_kernel layout dilation inputs st = (st1, inr kernel) →
  ∃ rest, trace (compute_conv2d attrs inputs st).1 = trace st1 ++ rest
          ∧ Forall (λ ev, conv_on_kernel kernel ev ∨ bias_step ev) rest.
Proof.
  intros Ha Hl Hk.
  rewrite (compute_conv2d_checked _ _ _ _ _ _ _ _ _ Ha Hl).
  rewrite (bind_inr _ _ _ _ _ Hk). clear Hk. revert st1.
  apply emits_bind.
  - eapply emits_weaken; [|apply conv2d_dispatch_emits]. by left.
  - intros out. eapply emits_weaken; [|apply conv2d_bias_emits]. by right.
Qed.

(** Zero insertion along axes 2 and 3: tap (h, x) lands on index
    (dh * h, dw * x), and every index strictly between taps holds zero. *)
Lemma nd_dilate_nchw_at K dh dw i j h x r q :
  0 ≤ r < dh → 0 ≤ q < dw →
  at_index (nd_dilate K [1; 1; dh; dw]) [i; j; dh * h + r; dw * x + q] =
    if (r =? 0) && (q =? 0) then at_index K [i; j; h; x] else 0.
Proof.
  intros Hr Hq. cbn [nd_dilate at_index zip zip_with forallb fst snd].
  rewrite !Z.mod_1_r, !Z.div_1_r.
  rewrite (Z.mul_comm dh h), (Z.mul_comm dw x).
  rewrite !Z.div_add_l, !(Z.add_comm (_ * _)), !Z_mod_plus_full by lia.
  rewrite !Z.mod_small, !Z.div_small, !Z.add_0_r by lia.
  simpl. by rewrite andb_true_r.
Qed.

(** The same along axes 1 and 2. *)
Lemma nd_dilate_nhwc_at K dh dw i j h x r q :
  0 ≤ r < dh → 0 ≤ q < dw →
  at_index (nd_dilate K [1; dh; dw; 1]) [i; dh * h + r; dw * x + q; j] =
    if (r =? 0) && (q =? 0) then at_index K [i; h; x; j] else 0.
Proof.
  intros Hr Hq. cbn [nd_dilate at_index zip zip_with forallb fst snd].
  rewrite !Z.mod_1_r, !Z.div_1_r.
  rewrite (Z.mul_comm dh h), (Z.mul_comm dw x).
  rewrite !Z.div_add_l, !(Z.add_comm (_ * _)), !Z_mod_plus_full by lia.
  rewrite !Z.mod_small, !Z.div_small, !Z.add_0_r by lia.
  simpl. by rewrite andb_true_r.
Qed.

(** C2. In a conv2d call with dilation (dh, dw), both at least 1 and not
    both 1, the first library call is the dilation of the second input,
    with strides [1, 1, dh, dw] under "NCHW" and [1, dh, dw, 1] under
    "NHWC", and any convolution that follows is given the dilated kernel.
    Such strides insert dh - 1 zeros between taps along the first spatial
    axis and dw - 1 along the second; for (2, 1) under "NCHW" that is one
    zero between taps along axis 2 and none along axis 3. *)
Theorem conv2d_dilates_kernel attrs inputs st padding strides dh dw groups
    channels layout w :
  conv2d_attrs attrs padding strides [dh; dw] groups channels layout →
  1 ≤ dh → 1 ≤ dw → (dh, dw) ≠ (1, 1) →
  inputs !! 1%nat = Some w →
  (layout = NCHW →
     let c := nn_dilate w [1; 1; dh; dw] in
     conv2d_kernel layout [dh; dw] inputs st =
       (record (Prim c) st, inr (topi c))
     ∧ ∃ rest, trace (compute_conv2d attrs inputs st).1 =
                 trace st ++ Prim c :: rest
               ∧ Forall (λ ev, conv_on_kernel (topi c) ev ∨ bias_step ev)
                   rest)
  ∧ (layout = NHWC →
     let c := nn_dilate w [1; dh; dw; 1] in
     conv2d_kernel layout [dh; dw] inputs st =
       (record (Prim c) st, inr (topi c))
     ∧ ∃ rest, trace (compute_conv2d attrs inputs st).1 =
                 trace st ++ Prim c :: rest
               ∧ Forall (λ ev, conv_on_kernel (topi c) ev ∨ bias_step ev)
                   rest)
  ∧ (∀ K i j h x r q, 0 ≤ r < dh → 0 ≤ q < dw →
       at_index (nd_dilate K [1; 1; dh; dw])
         [i; j; dh * h + r; dw * x + q] =
         (if (r =? 0) && (q =? 0) then at_index K [i; j; h; x] else 0)
       ∧ at_index (nd_dilate K [1; dh; dw; 1])
           [i; dh * h + r; dw * x + q; j] =
           (if (r =? 0) && (q =? 0) then at_index K [i; h; x; j] else 0))
  ∧ (∀ K i j h x,
       at_index (nd_dilate K [1; 1; 2; 1]) [i; j; 2 * h; x] =
         at_index K [i; j; h; x]
       ∧ at_index (nd_dilate K [1; 1; 2; 1]) [i; j; 2 * h + 1; x] = 0
       ∧ ∀ a b kh kw, dims K = [a; b; kh; kw] →
           dims (nd_dilate K [1; 1; 2; 1]) = [a; b; 2 * kh - 1; kw]).
Proof.
  intros Ha Hh Hw Hne Hin.
  assert (∀ l, l = NCHW ∨ l = NHWC → layout = l →
            let c := nn_dilate w (if bool_decide (layout = NCHW)
                                  then [1; 1; dh; dw] else [1; dh; dw; 1]) in
            conv2d_kernel layout [dh; dw] inputs st =
              (record (Prim c) st, inr (topi c))
            ∧ ∃ rest, trace (compute_conv2d attrs inputs st).1 =
                        trace st ++ Prim c :: rest
                      ∧ Forall (λ ev, conv_on_kernel (topi c) ev
                                      ∨ bias_step ev) rest) as Hcode.
  { intros l Hl El c.
    assert (conv2d_kernel layout [dh; dw] inputs st =
              (record (Prim c) st, inr (topi c))) as Hk.
    { rewrite conv2d_kernel_dilated by done. by mstep. }
    split; [done|].
    destruct (compute_conv2d_after_kernel attrs inputs st _ _ _ _ _ _ _ _
                Ha ltac:(by subst) Hk) as (rest & Ht & Hrest).
    exists rest. split; [|done].
    by rewrite Ht, trace_record, <- app_assoc. }
  split; [|split; [|split]].
  - intros El. specialize (Hcode NCHW (or_introl eq_refl) El).
    by rewrite bool_decide_eq_true_2 in Hcode.
  - intros El. specialize (Hcode NHWC (or_intror eq_refl) El).
    rewrite bool_decide_eq_false_2 in Hcode; [done|by subst].
  - intros K i j h x r q Hr Hq. split.
    + by apply nd_dilate_nchw_at.
    + by apply nd_dilate_nhwc_at.
  - intros K i j h x. split; [|split].
    + pose proof (nd_dilate_nchw_at K 2 1 i j h x 0 0) as Hz.
      rewrite !Z.add_0_r, Z.mul_1_l in Hz. apply Hz; lia.
    + pose proof (nd_dilate_nchw_at K 2 1 i j h x 1 0) as Hz.
      rewrite !Z.add_0_r, Z.mul_1_l in Hz. apply Hz; lia.
    + intros a b kh kw Hdim. unfold nd_dilate. simpl. rewrite Hdim. simpl.
      f_equal; [lia|]. f_equal; [lia|]. f_equal; [lia|]. f_equal; lia.
Qed.

(** C7. In a conv2d call with dilation exactly (1, 1), every convolution
    primitive the call reaches is given the second input itself as its
    kernel: the only calls made are convolutions on that handle and the
    two calls of the bias step, so no dilation is ever applied; the kernel
    step returns the handle without touching the state. *)
Theorem conv2d_unit_dilation_kernel attrs inputs st padding strides groups
    channels layout w :
  conv2d_attrs attrs padding strides [1; 1] groups channels layout →
  inputs !! 1%nat = Some w →
  conv2d_kernel layout [1; 1] inputs st = (st, inr w)
  ∧ (∃ evs, trace (compute_conv2d attrs inputs st).1 = trace st ++ evs
            ∧ Forall (λ ev, conv_on_kernel w ev ∨ bias_step ev) evs)
  ∧ (layout = NCHW ∨ layout = NHWC →
     compute_conv2d attrs inputs st =
       (out <- conv2d_dispatch groups channels layout strides padding
                 inputs w ;;
        conv2d_bias attrs layout inputs out) st).
Proof.
  intros Ha Hw.
  assert (conv2d_kernel layout [1; 1] inputs st = (st, inr w)) as Hk.
  { rewrite conv2d_kernel_unit. by apply getitem_Some. }
  split; [done|]. split.
  - rewrite (compute_conv2d_read _ _ _ _ _ _ _ _ _ Ha).
    destruct (bool_decide (layout = NCHW) || bool_decide (layout = NHWC));
      [|exists []; by rewrite app_nil_r].
    rewrite (bind_inr (py_assert true None) _ st st tt) by reflexivity.
    rewrite (bind_inr _ _ _ _ _ Hk).
    clear Hk. revert st.
    apply emits_bind.
    + eapply emits_weaken; [|apply conv2d_dispatch_emits]. by left.
    + intros out. eapply emits_weaken; [|apply conv2d_bias_emits].
      by right.
  - intros Hl.
    rewrite (compute_conv2d_checked _ _ _ _ _ _ _ _ _ Ha Hl).
    by rewrite (bind_inr _ _ _ _ _ Hk).
Qed.

End Conv2dKernel.

(** ** conv2d_transpose: output padding *)

Section Conv2dTranspose.
Context `{TensorLib}.

(** Padding after the data only: the data keeps its indices, and every
    index past it along the two spatial axes holds zero. *)
Lemma nd_pad_trailing_at X d0 d1 d2 d3 a_h a_w n c h x :
  dims X = [d0; d1; d2; d3] →
  0 ≤ n < d0 → 0 ≤ c < d1 → 0 ≤ h → 0 ≤ x →
  at_index (nd_pad X [0; 0; 0; 0] [0; 0; a_h; a_w]) [n; c; h; x] =
    if (h <? d2) && (x <? d3) then at_index X [n; c; h; x] else 0.
Proof.
  intros Hdim Hn Hc Hh Hx.
  cbn [nd_pad at_index]. rewrite Hdim.
  cbn [zip zip_with forallb fst snd]. rewrite !Z.sub_0_r, !Z.add_0_l.
  assert ((0 <=? n) = true) as -> by (apply Z.leb_le; lia).
  assert ((0 <=? c) = true) as -> by (apply Z.leb_le; lia).
  assert ((0 <=? h) = true) as -> by (apply Z.leb_le; lia).
  assert ((0 <=? x) = true) as -> by (apply Z.leb_le; lia).
  assert ((n <? d0) = true) as -> by (apply Z.ltb_lt; lia).
  assert ((c <? d1) = true) as -> by (apply Z.ltb_lt; lia).
  simpl. by rewrite andb_true_r.
Qed.

Lemma nd_pad_trailing_dims X d0 d1 d2 d3 a_h a_w :
  dims X = [d0; d1; d2; d3] →
  dims (nd_pad X [0; 0; 0; 0] [0; 0; a_h; a_w]) =
    [d0; d1; d2 + a_h; d3 + a_w].
Proof.
  intros Hdim. cbn [nd_pad dims]. rewrite Hdim.
  cbn [zip_with]. by rewrite !Z.add_0_r.
Qed.

(** In the supported configuration the call returns, and this is all it
    does. *)
Lemma conv2d_transpose_runs attrs inputs st padding strides use_bias op_h
    op_w data kernel bias :
  conv2d_transpose_attrs attrs padding strides use_bias [op_h; op_w] →
  inputs !! 0%nat = Some data →
  inputs !! 1%nat = Some kernel →
  (use_bias = true → inputs !! 2%nat = Some bias) →
  let conv := nn_conv2d_transpose_nchw data kernel strides padding in
  let expand := expand_dims bias 1 2 in
  let add := broadcast_add (topi conv) (topi expand) in
  let out := if use_bias then topi add else topi conv in
  let pad := nn_pad out [0; 0; 0; 0] [0; 0; op_h; op_w] in
  compute_conv2d_transpose attrs inputs st =
    (mkState (scope st)
       (trace st ++ Prim conv
          :: (if use_bias then [Prim expand; Prim add] else [])
          ++ [Prim pad]),
     inr (topi pad)).
Proof.
  intros (Hp & Hs & Hd & Hg & Hl & Hb & Ho) H0 H1 H2 conv expand add out
    pad.
  unfold compute_conv2d_transpose. mstep.
  rewrite bool_decide_eq_true_2 by done.
  rewrite (bind_inr (py_assert true _) _ st st tt) by reflexivity.
  rewrite (bind_inr (py_assert (bool_decide _) _) _ st st tt)
    by reflexivity.
  rewrite (bind_inr (py_assert (1 =? 1) _) _ st st tt) by reflexivity.
  mstep. subst pad out add expand conv.
  destruct use_bias.
  - specialize (H2 eq_refl).
    unfold bind, getitem, get_int_tuple, call, ret, record.
    rewrite H2, Ho. simpl. by rewrite <- !app_assoc.
  - unfold bind, getitem, get_int_tuple, call, ret, record.
    rewrite Ho. simpl. by rewrite <- !app_assoc.
Qed.

(** Whenever the call returns, it has gone through the transposed
    convolution, possibly the bias step, and the pad, in this order. *)
Lemma conv2d_transpose_returns attrs inputs st op_h op_w st' r :
  attrs !! "output_padding" = Some (VTuple [op_h; op_w]) →
  compute_conv2d_transpose attrs inputs st = (st', inr r) →
  ∃ data kernel strides padding mid out,
    let conv := nn_conv2d_transpose_nchw data kernel strides padding in
    let pad := nn_pad out [0; 0; 0; 0] [0; 0; op_h; op_w] in
    r = topi pad
    ∧ trace st' = trace st ++ Prim conv :: mid ++ [Prim pad]
    ∧ (mid = [] ∧ out = topi conv
       ∨ ∃ bias,
           let expand := expand_dims bias 1 2 in
           let add := broadcast_add (topi conv) (topi expand) in
           mid = [Prim expand; Prim add] ∧ out = topi add).
Proof.
  intros Ho Hrun.
  unfold compute_conv2d_transpose, bind, get_int_tuple, get_int, get_bool,
    attrs_getitem, getitem, py_assert, call, ret, raise, record in Hrun.
  rewrite Ho in Hrun.
  repeat (case_match; simplify_eq).
  all: simpl in *; simplify_eq.
  - eexists _, _, _, _, _, _. split; [reflexivity|]. split; cycle 1.
    + right. eexists. split; reflexivity.
    + by rewrite <- !app_assoc.
  - eexists _, _, _, _, _, _. split; [reflexivity|]. split; cycle 1.
    + left. split; reflexivity.
    + by rewrite <- !app_assoc.
Qed.

(** C4. In a conv2d_transpose call with output_padding (op_h, op_w), the
    value returned is the result of one pad call, made last, on the output of
    the transposed convolution or of the bias add that followed it, with
    nothing before on any axis and (0, 0, op_h, op_w) after; in the supported
    configuration the call does return.  Such a pad leaves the data where it
    was and adds op_h zero rows past the end of axis 2 and op_w zero columns
    past the end of axis 3; for (1, 2) that is one row and two columns. *)
Theorem conv2d_transpose_output_padding attrs inputs st op_h op_w :
  attrs !! "output_padding" = Some (VTuple [op_h; op_w]) →
  (∀ st' r, compute_conv2d_transpose attrs inputs st = (st', inr r) →
     ∃ data kernel strides padding mid out,
       let conv := nn_conv2d_transpose_nchw data kernel strides padding in
       let pad := nn_pad out [0; 0; 0; 0] [0; 0; op_h; op_w] in
       r = topi pad
       ∧ trace st' = trace st ++ Prim conv :: mid ++ [Prim pad]
       ∧ (mid = [] ∧ out = topi conv
          ∨ ∃ bias,
              let expand := expand_dims bias 1 2 in
              let add := broadcast_add (topi conv) (topi expand) in
              mid = [Prim expand; Prim add] ∧ out = topi add))
  ∧ (∀ padding strides use_bias data kernel bias,
       conv2d_transpose_attrs attrs padding strides use_bias [op_h; op_w] →
       inputs !! 0%nat = Some data →
       inputs !! 1%nat = Some kernel →
       (use_bias = true → inputs !! 2%nat = Some bias) →
       let conv := nn_conv2d_transpose_nchw data kernel strides padding in
       let expand := expand_dims bias 1 2 in
       let add := broadcast_add (topi conv) (topi expand) in
       let out := if use_bias then topi add else topi conv in
       let pad := nn_pad out [0; 0; 0; 0] [0; 0; op_h; op_w] in
       compute_conv2d_transpose attrs inputs st =
         (mkState (scope st)
            (trace st ++ Prim conv
               :: (if use_bias then [Prim expand; Prim add] else [])
               ++ [Prim pad]),
          inr (topi pad)))
  ∧ (∀ X d0 d1 d2 d3, dims X = [d0; d1; d2; d3] →
       dims (nd_pad X [0; 0; 0; 0] [0; 0; op_h; op_w]) =
         [d0; d1; d2 + op_h; d3 + op_w]
       ∧ ∀ n c h x, 0 ≤ n < d0 → 0 ≤ c < d1 → 0 ≤ h → 0 ≤ x →
           at_index (nd_pad X [0; 0; 0; 0] [0; 0; op_h; op_w])
             [n; c; h; x] =
             if (h <? d2) && (x <? d3) then at_index X [n; c; h; x]
             else 0)
  ∧ (∀ X d0 d1 d2 d3, dims X = [d0; d1; d2; d3] →
       dims (nd_pad X [0; 0; 0; 0] [0; 0; 1; 2]) =
         [d0; d1; d2 + 1; d3 + 2]
       ∧ ∀ n c h x, 0 ≤ n < d0 → 0 ≤ c < d1 → 0 ≤ h → 0 ≤ x →
           at_index (nd_pad X [0; 0; 0; 0] [0; 0; 1; 2]) [n; c; h; x] =
             if (h <? d2) && (x <? d3) then at_index X [n; c; h; x]
             else 0).
Proof.
  intros Ho. split; [|split; [|split]].
  - intros st' r Hrun. by eapply conv2d_transpose_returns.
  - intros. by eapply conv2d_transpose_runs.
  - intros X d0 d1 d2 d3 Hdim. split.
    + exact (nd_pad_trailing_dims X d0 d1 d2 d3 op_h op_w Hdim).
    + intros. eapply nd_pad_trailing_at; eauto.
  - intros X d0 d1 d2 d3 Hdim. split.
    + exact (nd_pad_trailing_dims X d0 d1 d2 d3 1 2 Hdim).
    + intros. eapply nd_pad_trailing_at; eauto.
Qed.

End Conv2dTranspose.

(** ** Schedule selection for conv2d *)

Section ScheduleSelection.
Context `{TensorLib}.

Lemma with_target_request target s st :
  with_target target (request s) st =
    (record (Sched (Some (tvm_target_create target)) s) st,
     inr (topi_generic (Some (tvm_target_create target)) s)).
Proof. by destruct st. Qed.

(** C5. With groups = 1 and layout "NCHW" the NCHW template is requested;
    with groups = 1 and layout "NHWC" the NHWC template; in every other
    case the depthwise-NCHW template.  The request is made while the scope
    of the named target is the current one, and the scope is left again
    afterwards. *)
Theorem schedule_conv2d_selects attrs outs target st groups layout :
  attrs !! "groups" = Some (VInt groups) →
  attrs !! "layout" = Some layout →
  let current := Some (tvm_target_create target) in
  let selected s :=
    schedule_conv2d attrs outs target st =
      (record (Sched current s) st, inr (topi_generic current s)) in
  (groups = 1 → layout = NCHW → selected (generic_schedule_conv2d_nchw outs))
  ∧ (groups = 1 → layout = NHWC →
     selected (generic_schedule_conv2d_nhwc outs))
  ∧ (¬ (groups = 1 ∧ layout = NCHW) → ¬ (groups = 1 ∧ layout = NHWC) →
     selected (generic_schedule_depthwise_conv2d_nchw outs))
  ∧ (groups ≠ 1 → selected (generic_schedule_depthwise_conv2d_nchw outs))
  ∧ scope (schedule_conv2d attrs outs target st).1 = scope st.
Proof.
  intros Hg Hl current selected. subst selected current.
  assert (∀ s,
    (if (groups =? 1) && bool_decide (layout = NCHW)
     then generic_schedule_conv2d_nchw outs
     else if (groups =? 1) && bool_decide (layout = NHWC)
          then generic_schedule_conv2d_nhwc outs
          else generic_schedule_depthwise_conv2d_nchw outs) = s →
    schedule_conv2d attrs outs target st =
      (record (Sched (Some (tvm_target_create target)) s) st,
       inr (topi_generic (Some (tvm_target_create target)) s))) as Hsel.
  { intros s <-. unfold schedule_conv2d. mstep.
    repeat case_match; apply with_target_request. }
  split; [|split; [|split; [|split]]].
  - intros -> ->. by apply Hsel.
  - intros -> ->. by apply Hsel.
  - intros Hn1 Hn2. apply Hsel.
    destruct (Z.eqb_spec groups 1) as [->|]; [|done].
    simpl. rewrite !bool_decide_eq_false_2; [done|..]; naive_solver.
  - intros Hn. apply Hsel. by apply Z.eqb_neq in Hn as ->.
  - erewrite Hsel; done.
Qed.

End ScheduleSelection.

(** ** The registered patterns *)

Lemma pattern_of_register_pattern name p reg name' :
  pattern_of (register_pattern name p reg) name' =
    if decide (name = name') then Some p else pattern_of reg name'.
Proof.
  unfold pattern_of, register_pattern. rewrite lookup_insert.
  by case_decide.
Qed.

Lemma pattern_of_register_schedule name f reg name' :
  pattern_of (register_schedule name f reg) name' = pattern_of reg name'.
Proof.
  unfold pattern_of, register_schedule, entry. rewrite lookup_insert.
  case_decide; [subst|done]. by destruct (reg !! name').
Qed.

Lemma pattern_of_register_compute name f reg name' :
  pattern_of (register_compute name f reg) name' = pattern_of reg name'.
Proof.
  unfold pattern_of, register_compute, entry. rewrite lookup_insert.
  case_decide; [subst|done]. by destruct (reg !! name').
Qed.

Lemma pattern_of_register_alter_op_layout name f reg name' :
  pattern_of (register_alter_op_layout name f reg) name' =
    pattern_of reg name'.
Proof.
  unfold pattern_of, register_alter_op_layout, entry. rewrite lookup_insert.
  case_decide; [subst|done]. by destruct (reg !! name').
Qed.

(** Importing nn.py into any registry sets the pattern of every name of the
    table and leaves the pattern of every other name as it was. *)
Lemma import_nn_pattern_of reg name :
  pattern_of (import_nn reg) name =
    match classify name with
    | Some p => Some p
    | None => pattern_of reg name
    end.
Proof.
  unfold import_nn, nn_registrations. cbn [foldl].
  repeat first
    [ rewrite pattern_of_register_pattern
    | rewrite pattern_of_register_schedule
    | rewrite pattern_of_register_compute
    | rewrite pattern_of_register_alter_op_layout ].
  repeat (case_decide; [subst; vm_compute; reflexivity|]).
  unfold classify, classification_table.
  cbn [list_to_map foldr uncurry fst snd].
  by rewrite !lookup_insert_ne, lookup_empty by done.
Qed.

(** C6. Every operator name nn.py registers carries the pattern the
    classification table gives it, whatever the registry held before the
    module was imported, and the module registers a pattern for no name
    outside the table. *)
Theorem nn_patterns_match_table (name : string) :
  pattern <$> nn_registry !! name = Some <$> classify name
  ∧ ∀ reg : Registry,
      pattern_of (import_nn reg) name =
        match classify name with
        | Some p => Some p
        | None => pattern_of reg name
        end.
Proof.
  split; [|intros reg; apply import_nn_pattern_of].
  unfold classify. rewrite <- !lookup_fmap.
  apply (f_equal (λ m : gmap string (option OpPattern), m !! name)).
  reflexivity.
Qed.

(** ** The third input without bias *)

Section NoBias.
Context `{TensorLib}.

(** C10. With use_bias false, the compute lowering of dense, conv2d,
    _contrib_conv2d_NCHWc and conv2d_transpose depends on its inputs
    through the first two slots only: two input sequences that agree on
    slots 0 and 1 give the same outcome and the same trace, whatever else
    they hold and however long they are.  A sequence of exactly two
    inputs therefore behaves as any longer one; for dense it returns the
    two-input call. *)
Theorem no_bias_reads_two_inputs attrs inputs inputs' st :
  attrs !! "use_bias" = Some (VBool false) →
  inputs !! 0%nat = inputs' !! 0%nat →
  inputs !! 1%nat = inputs' !! 1%nat →
  compute_dense attrs inputs st = compute_dense attrs inputs' st
  ∧ compute_conv2d attrs inputs st = compute_conv2d attrs inputs' st
  ∧ compute_contrib_conv2d_NCHWc attrs inputs st =
      compute_contrib_conv2d_NCHWc attrs inputs' st
  ∧ compute_conv2d_transpose attrs inputs st =
      compute_conv2d_transpose attrs inputs' st
  ∧ (∀ data weight, inputs = [data; weight] →
       compute_dense attrs inputs st =
         (record (Prim (nn_dense data weight None)) st,
          inr (topi (nn_dense data weight None)))).
Proof.
  intros Hb H0 H1.
  split; [|split; [|split; [|split]]].
  - unfold compute_dense, getitem. mstep. by rewrite H0, H1.
  - unfold compute_conv2d, conv2d_kernel, conv2d_dispatch, conv2d_bias,
      get_bool, getitem.
    rewrite Hb, H0, H1. done.
  - unfold compute_contrib_conv2d_NCHWc, get_bool, getitem.
    rewrite Hb, H0, H1. done.
  - unfold compute_conv2d_transpose, get_bool, getitem at 1 2 3.
    rewrite Hb, H0, H1. done.
  - intros data weight ->. unfold compute_dense. by mstep.
Qed.

End NoBias.

(** ** Runs that return, step by step *)

Section Returns.
Context `{TensorLib}.

Lemma bind_returns {A B} (m : M A) (k : A → M B) st st' b :
  bind m k st = (st', inr b) →
  ∃ st1 a, m st = (st1, inr a) ∧ k a st1 = (st', inr b).
Proof.
  unfold bind. destruct (m st) as [st1 [e | a]]; [done|]. by exists st1, a.
Qed.

Lemma getitem_returns {A} (seq : list A) i st st' x :
  getitem seq i st = (st', inr x) → st' = st ∧ seq !! i = Some x.
Proof. unfold getitem. destruct (seq !! i); by intros [= <- <-]. Qed.

Lemma attrs_getitem_returns attrs key st st' v :
  attrs_getitem attrs key st = (st', inr v) →
  st' = st ∧ attrs !! key = Some v.
Proof. unfold attrs_getitem. destruct (attrs !! key); by intros [= <- <-]. Qed.

Lemma get_int_returns attrs key st st' z :
  get_int attrs key st = (st', inr z) →
  st' = st ∧ attrs !! key = Some (VInt z).
Proof.
  unfold get_int. destruct (attrs !! key) as [[]|]; by intros [= <- <-].
Qed.

Lemma get_int_tuple_returns attrs key st st' t :
  get_int_tuple attrs key st = (st', inr t) →
  st' = st ∧ attrs !! key = Some (VTuple t).
Proof.
  unfold get_int_tuple. destruct (attrs !! key) as [[]|]; by intros [= <- <-].
Qed.

Lemma get_bool_returns attrs key st st' b :
  get_bool attrs key st = (st', inr b) →
  st' = st ∧ attrs !! key = Some (VBool b).
Proof.
  unfold get_bool. destruct (attrs !! key) as [[]|]; by intros [= <- <-].
Qed.

Lemma py_assert_returns cond msg st st' u :
  py_assert cond msg st = (st', inr u) → st' = st ∧ cond = true.
Proof. destruct cond; by intros [= <-]. Qed.

Lemma unpack2_returns t st st' a b :
  unpack2 t st = (st', inr (a, b)) → st' = st ∧ t = [a; b].
Proof. destruct t as [|? [|? [|? ?]]]; by intros [= <- <- <-]. Qed.

Lemma call_returns c st st' r :
  call c st = (st', inr r) → st' = record (Prim c) st ∧ r = topi c.
Proof. by intros [= <- <-]. Qed.

End Returns.

(** Splits the first step off a run that returned: [a] is what the step
    returned, [Hm] what is known of it. *)
Tactic Notation "returns_step" hyp(H) "as" ident(a) ident(Hm) :=
  let st1 := fresh "st" in
  apply bind_returns in H as (st1 & a & Hm & H);
  first
    [ apply get_int_tuple_returns in Hm as [-> Hm]
    | apply get_int_returns in Hm as [-> Hm]
    | apply get_bool_returns in Hm as [-> Hm]
    | apply attrs_getitem_returns in Hm as [-> Hm]
    | apply getitem_returns in Hm as [-> Hm]
    | apply py_assert_returns in Hm as [-> Hm]
    | idtac ].

(** ** dense and conv2d: what a call amounts to *)

Section ComputeOutcomes.
Context `{TensorLib}.

(** X1. With use_bias true, a dense call on three inputs makes the one
    three-argument dense call, with the third input as bias; on fewer than
    three inputs it fails with [IndexError] and makes no call, even when data
    and weight are there. *)
Theorem compute_dense_with_bias attrs inputs st :
  attrs !! "use_bias" = Some (VBool true) →
  (∀ data weight bias,
     inputs !! 0%nat = Some data → inputs !! 1%nat = Some weight →
     inputs !! 2%nat = Some bias →
     compute_dense attrs inputs st =
       (record (Prim (nn_dense data weight (Some bias))) st,
        inr (topi (nn_dense data weight (Some bias)))))
  ∧ ((length inputs < 3)%nat →
     compute_dense attrs inputs st = (st, inl IndexError)).
Proof.
  intros Hb. split.
  - intros data weight bias H0 H1 H2. unfold compute_dense. mstep.
    cbv beta iota. by mstep.
  - intros Hlen. unfold compute_dense. mstep. cbv beta iota.
    assert (inputs !! 2%nat = None) as H2 by (apply lookup_ge_None; lia).
    unfold bind, getitem. rewrite H2.
    by destruct (inputs !! 0%nat), (inputs !! 1%nat).
Qed.

Lemma conv2d_kernel_returns layout dilation inputs st st1 kernel :
  conv2d_kernel layout dilation inputs st = (st1, inr kernel) →
  ∃ dh dw w,
    dilation = [dh; dw] ∧ 1 ≤ dh ∧ 1 ≤ dw ∧ inputs !! 1%nat = Some w
    ∧ ((dh, dw) = (1, 1) ∧ kernel = w ∧ st1 = st
       ∨ (dh, dw) ≠ (1, 1)
         ∧ let s := if bool_decide (layout = NCHW)
                    then [1; 1; dh; dw] else [1; dh; dw; 1] in
           kernel = topi (nn_dilate w s)
           ∧ st1 = record (Prim (nn_dilate w s)) st).
Proof.
  unfold conv2d_kernel. intros Hrun.
  apply bind_returns in Hrun as (st2 & [dh dw] & Hu & Hrun).
  apply unpack2_returns in Hu as [-> ->].
  destruct (orb _ _) eqn:Hpos; [done|].
  apply orb_false_iff in Hpos as [Hh%Z.ltb_ge Hw%Z.ltb_ge].
  exists dh, dw.
  case_bool_decide as Hunit.
  - apply getitem_returns in Hrun as [-> Hw1]. exists kernel.
    repeat split; try done. left. by simplify_eq.
  - assert ((dh, dw) ≠ (1, 1)) by congruence.
    case_bool_decide; returns_step Hrun as w Hw1;
      apply call_returns in Hrun as [-> ->];
      eexists; repeat split; try done; right; by repeat split.
Qed.

Lemma conv2d_dispatch_returns groups channels layout strides padding inputs
    kernel st st2 out :
  conv2d_dispatch groups channels layout strides padding inputs kernel st =
    (st2, inr out) →
  ∃ data conv,
    inputs !! 0%nat = Some data
    ∧ (groups = 1 ∧ conv = nn_conv2d data kernel strides padding layout
       ∨ groups ≠ 1
         ∧ (∃ e, shape data !! 1%nat = Some e ∧ groups = get_const_int e)
         ∧ groups = channels
         ∧ conv = nn_depthwise_conv2d_nchw data kernel strides padding)
    ∧ out = topi conv ∧ st2 = record (Prim conv) st.
Proof.
  unfold conv2d_dispatch. intros Hrun.
  destruct (Z.eqb_spec groups 1) as [->|Hg].
  - returns_step Hrun as data Hd. apply call_returns in Hrun as [-> ->].
    eexists _, _. split; [done|]. split; [by left|done].
  - returns_step Hrun as data Hd. returns_step Hrun as e He.
    destruct (andb _ _) eqn:Hc; [|done].
    apply andb_true_iff in Hc as [Hc%Z.eqb_eq Hch%Z.eqb_eq].
    returns_step Hrun as data' Hd'. apply call_returns in Hrun as [-> ->].
    simplify_eq.
    eexists _, _. split; [done|]. split; [|done].
    right. repeat split; try done. by eexists.
Qed.

Lemma conv2d_bias_returns attrs layout inputs out st st' r :
  conv2d_bias attrs layout inputs out st = (st', inr r) →
  attrs !! "use_bias" = Some (VBool false) ∧ r = out ∧ st' = st
  ∨ ∃ bias,
      let expand :=
        expand_dims bias (if bool_decide (layout = NCHW) then 1 else 0) 2 in
      let add := broadcast_add out (topi expand) in
      attrs !! "use_bias" = Some (VBool true)
      ∧ inputs !! 2%nat = Some bias
      ∧ r = topi add
      ∧ st' = record (Prim add) (record (Prim expand) st).
Proof.
  unfold conv2d_bias. intros Hrun. returns_step Hrun as use_bias Hb.
  destruct use_bias.
  - returns_step Hrun as bias Hi. returns_step Hrun as bias' Hc.
    apply call_returns in Hc as [-> ->].
    apply call_returns in Hrun as [-> ->]. right. by eexists.
  - left. unfold ret in Hrun. by simplify_eq.
Qed.

(** X2. A conv2d call that returns has read all six attributes, under a
    supported layout and a dilation of two components that are at least 1; it
    has called the dilation at most once and first, then exactly one
    convolution (the dense one when groups is 1, else the depthwise one, with
    groups equal to the extent of axis 1 of the data and to channels), then
    the bias step if use_bias is true.  The bias is expanded at axis 1 under
    "NCHW" and at axis 0 under "NHWC", by two axes.  The value returned is
    the output of the convolution or of the bias add, and the target scope is
    as it was. *)
Theorem compute_conv2d_returns attrs inputs st st' r :
  compute_conv2d attrs inputs st = (st', inr r) →
  ∃ padding strides dh dw groups channels layout data w kernel conv,
    conv2d_attrs attrs padding strides [dh; dw] groups channels layout
    ∧ (layout = NCHW ∨ layout = NHWC) ∧ 1 ≤ dh ∧ 1 ≤ dw
    ∧ inputs !! 0%nat = Some data ∧ inputs !! 1%nat = Some w
    ∧ ∃ pre post,
        trace st' = trace st ++ pre ++ Prim conv :: post
        ∧ scope st' = scope st
        ∧ ((dh, dw) = (1, 1) ∧ kernel = w ∧ pre = []
           ∨ (dh, dw) ≠ (1, 1)
             ∧ let s := if bool_decide (layout = NCHW)
                        then [1; 1; dh; dw] else [1; dh; dw; 1] in
               kernel = topi (nn_dilate w s) ∧ pre = [Prim (nn_dilate w s)])
        ∧ (groups = 1 ∧ conv = nn_conv2d data kernel strides padding layout
           ∨ groups ≠ 1
             ∧ (∃ e, shape data !! 1%nat = Some e ∧ groups = get_const_int e)
             ∧ groups = channels
             ∧ conv = nn_depthwise_conv2d_nchw data kernel strides padding)
        ∧ (attrs !! "use_bias" = Some (VBool false)
           ∧ r = topi conv ∧ post = []
           ∨ ∃ bias,
               let expand :=
                 expand_dims bias
                   (if bool_decide (layout = NCHW) then 1 else 0) 2 in
               let add := broadcast_add (topi conv) (topi expand) in
               attrs !! "use_bias" = Some (VBool true)
               ∧ inputs !! 2%nat = Some bias
               ∧ r = topi add ∧ post = [Prim expand; Prim add]).
Proof.
  unfold compute_conv2d. intros Hrun.
  returns_step Hrun as padding Hp. returns_step Hrun as strides Hs.
  returns_step Hrun as dilation Hdil. returns_step Hrun as groups Hg.
  returns_step Hrun as channels Hc. returns_step Hrun as layout Hlay.
  returns_step Hrun as u Hassert.
  apply orb_true_iff in Hassert.
  assert (layout = NCHW ∨ layout = NHWC) as Hl.
  { destruct Hassert as [?%bool_decide_eq_true|?%bool_decide_eq_true];
      auto. }
  returns_step Hrun as kernel Hk. returns_step Hrun as out Hdisp.
  apply conv2d_kernel_returns in Hk
    as (dh & dw & w & -> & Hh & Hw & Hw1 & Hker).
  apply conv2d_dispatch_returns in Hdisp
    as (data & conv & Hd & Hconv & -> & ->).
  exists padding, strides, dh, dw, groups, channels, layout, data, w, kernel,
    conv.
  split; [done|]. do 5 (split; [done|]).
  apply conv2d_bias_returns in Hrun as [(Hb & -> & ->)|(bias & Hb & Hi & -> & ->)].
  - destruct Hker as [(Hu & -> & ->)|(Hu & -> & ->)].
    + exists [], []. split; [done|]. split; [done|].
      split; [by left|]. split; [done|]. by left.
    + eexists [_], []. split; [by rewrite !trace_record, <- !app_assoc|].
      split; [done|]. split; [by right|]. split; [done|]. by left.
  - destruct Hker as [(Hu & -> & ->)|(Hu & -> & ->)].
    + eexists [], [_; _].
      split; [by rewrite !trace_record, <- !app_assoc|].
      split; [done|]. split; [by left|]. split; [done|].
      right. by eexists.
    + eexists [_], [_; _].
      split; [by rewrite !trace_record, <- !app_assoc|].
      split; [done|]. split; [by right|]. split; [done|].
      right. by eexists.
Qed.

End ComputeOutcomes.

Section MoreConv2d.
Context `{TensorLib}.

(** X3. A conv2d call with use_bias true and no third input fails with
    [IndexError] only after the convolution: the trace it leaves holds the
    convolution call on the kernel (and the dilation before it, if any). *)
Theorem conv2d_bias_fails_after_convolution attrs inputs st st1 st2 padding
    strides dilation groups channels layout kernel out :
  conv2d_attrs attrs padding strides dilation groups channels layout →
  layout = NCHW ∨ layout = NHWC →
  conv2d_kernel layout dilation inputs st = (st1, inr kernel) →
  conv2d_dispatch groups channels layout strides padding inputs kernel st1 =
    (st2, inr out) →
  attrs !! "use_bias" = Some (VBool true) →
  inputs !! 2%nat = None →
  compute_conv2d attrs inputs st = (st2, inl IndexError)
  ∧ ∃ conv, trace st2 = trace st1 ++ [Prim conv] ∧ conv_on_kernel kernel (Prim conv).
Proof.
  intros Ha Hl Hk Hd Hb H2. split.
  - rewrite (compute_conv2d_checked _ _ _ _ _ _ _ _ _ Ha Hl).
    rewrite (bind_inr _ _ _ _ _ Hk), (bind_inr _ _ _ _ _ Hd).
    unfold conv2d_bias. mstep. cbv beta iota.
    unfold bind, getitem. by rewrite H2.
  - apply conv2d_dispatch_returns in Hd as (data & conv & _ & Hc & -> & ->).
    exists conv. split; [done|]. by destruct Hc as [[_ ->]|(_ & _ & _ & ->)].
Qed.

(** X4. A conv2d call under a supported layout whose dilation does not have
    exactly two components fails with a [ValueError] on the unpacking, with
    no call made. *)
Theorem conv2d_dilation_arity attrs inputs st padding strides dilation groups
    channels layout :
  conv2d_attrs attrs padding strides dilation groups channels layout →
  layout = NCHW ∨ layout = NHWC →
  length dilation ≠ 2%nat →
  ∃ msg, compute_conv2d attrs inputs st = (st, inl (ValueError msg)).
Proof.
  intros Ha Hl Hlen.
  rewrite (compute_conv2d_checked _ _ _ _ _ _ _ _ _ Ha Hl).
  unfold conv2d_kernel.
  destruct dilation as [|a [|b [|c rest]]]; try done; by eexists.
Qed.

(** X5. A conv2d call with groups other than 1 reads the extent of axis 1 of
    the data: on a data tensor with fewer than two axes it fails with
    [IndexError], after the kernel step and before any convolution. *)
Theorem conv2d_grouped_needs_axis_1 attrs inputs st st1 padding strides
    dilation groups channels layout data kernel :
  conv2d_attrs attrs padding strides dilation groups channels layout →
  layout = NCHW ∨ layout = NHWC →
  conv2d_kernel layout dilation inputs st = (st1, inr kernel) →
  inputs !! 0%nat = Some data →
  groups ≠ 1 → (length (shape data) < 2)%nat →
  compute_conv2d attrs inputs st = (st1, inl IndexError).
Proof.
  intros Ha Hl Hk Hd Hg Hlen.
  rewrite (compute_conv2d_checked _ _ _ _ _ _ _ _ _ Ha Hl).
  rewrite (bind_inr _ _ _ _ _ Hk).
  erewrite bind_inl; [done|].
  unfold conv2d_dispatch. apply Z.eqb_neq in Hg as ->. mstep.
  erewrite bind_inl; [done|].
  unfold getitem. by rewrite (proj2 (lookup_ge_None _ _)) by lia.
Qed.

End MoreConv2d.

Section NCHWc.
Context `{TensorLib}.

Lemma compute_contrib_conv2d_NCHWc_read attrs inputs st padding strides
    dilation kh kw groups channels :
  conv2d_NCHWc_attrs attrs padding strides dilation kh kw groups channels →
  compute_contrib_conv2d_NCHWc attrs inputs st =
    (py_assert (bool_decide (dilation = [1; 1]))
       (Some "not support dilate now") ;;
     out <- (if groups =? 1 then
               data <- getitem inputs 0 ;;
               kernel <- getitem inputs 1 ;;
               call (nn_conv2d_NCHWc data kernel channels (kh, kw) strides
                       padding)
             else
               raise (ValueError
                        "not support arbitrary group number > 1 for now")) ;;
     use_bias <- get_bool attrs "use_bias" ;;
     if use_bias then
       bias <- getitem inputs 2 ;;
       bias <- call (expand_dims bias 1 2) ;;
       call (broadcast_add out bias)
     else ret out) st.
Proof.
  intros (Hp & Hs & Hd & Hk & Hg & Hc).
  unfold compute_contrib_conv2d_NCHWc. mstep.
  rewrite (bind_inr (unpack2 [kh; kw]) _ st st (kh, kw)) by reflexivity.
  cbv beta iota zeta. by mstep.
Qed.

(** X6. A _contrib_conv2d_NCHWc call whose dilation is not (1, 1) fails on
    the assertion "not support dilate now", whatever groups is; with
    dilation (1, 1) and groups other than 1 it fails with the [ValueError] of
    the grouping.  No call is made in either case. *)
Theorem conv2d_NCHWc_rejections attrs inputs st padding strides dilation kh
    kw groups channels :
  conv2d_NCHWc_attrs attrs padding strides dilation kh kw groups channels →
  (dilation ≠ [1; 1] →
     compute_contrib_conv2d_NCHWc attrs inputs st =
       (st, inl (AssertionError (Some "not support dilate now"))))
  ∧ (dilation = [1; 1] → groups ≠ 1 →
     compute_contrib_conv2d_NCHWc attrs inputs st =
       (st, inl (ValueError
                   "not support arbitrary group number > 1 for now"))).
Proof.
  intros Ha. rewrite (compute_contrib_conv2d_NCHWc_read _ _ _ _ _ _ _ _ _ _ Ha).
  split.
  - intros Hd. by rewrite bool_decide_eq_false_2.
  - intros -> Hg. rewrite bool_decide_eq_true_2 by done.
    by apply Z.eqb_neq in Hg as ->.
Qed.

(** X7. A _contrib_conv2d_NCHWc call that returns has dilation (1, 1) and
    groups 1, and has made one packed-layout convolution on the first two
    inputs, with channels, the kernel size pair, strides and padding in this
    order, followed with use_bias true by the expansion of the third input
    at axis 1 by two axes and the broadcast add; it returns the output of the
    last call. *)
Theorem compute_contrib_conv2d_NCHWc_returns attrs inputs st st' r :
  compute_contrib_conv2d_NCHWc attrs inputs st = (st', inr r) →
  ∃ padding strides kh kw channels data kernel,
    conv2d_NCHWc_attrs attrs padding strides [1; 1] kh kw 1 channels
    ∧ inputs !! 0%nat = Some data ∧ inputs !! 1%nat = Some kernel
    ∧ scope st' = scope st
    ∧ let conv := nn_conv2d_NCHWc data kernel channels (kh, kw) strides
                    padding in
      attrs !! "use_bias" = Some (VBool false)
      ∧ r = topi conv ∧ trace st' = trace st ++ [Prim conv]
      ∨ ∃ bias,
          let expand := expand_dims bias 1 2 in
          let add := broadcast_add (topi conv) (topi expand) in
          attrs !! "use_bias" = Some (VBool true)
          ∧ inputs !! 2%nat = Some bias
          ∧ r = topi add
          ∧ trace st' = trace st ++ [Prim conv; Prim expand; Prim add].
Proof.
  unfold compute_contrib_conv2d_NCHWc. intros Hrun.
  returns_step Hrun as padding Hp. returns_step Hrun as strides Hs.
  returns_step Hrun as dilation Hdil. returns_step Hrun as ks Hks.
  returns_step Hrun as k Hk. destruct k as [kh kw].
  apply unpack2_returns in Hk as [-> ->].
  returns_step Hrun as groups Hg. returns_step Hrun as channels Hc.
  returns_step Hrun as u Hassert. returns_step Hrun as out Hconv.
  apply bool_decide_eq_true in Hassert as ->.
  destruct (Z.eqb_spec groups 1) as [->|]; [|done].
  returns_step Hconv as data Hd. returns_step Hconv as kernel Hker.
  apply call_returns in Hconv as [-> ->].
  returns_step Hrun as use_bias Hb.
  exists padding, strides, kh, kw, channels, data, kernel.
  split; [done|]. split; [done|]. split; [done|].
  destruct use_bias.
  - returns_step Hrun as bias Hi. returns_step Hrun as bias' Hc'.
    apply call_returns in Hc' as [-> ->].
    apply call_returns in Hrun as [-> ->].
    split; [done|]. right. eexists. repeat split; try done.
    by rewrite !trace_record, <- !app_assoc.
  - unfold ret in Hrun. simplify_eq. split; [done|]. by left.
Qed.

End NCHWc.

Section NCHWcSchedule.
Context `{TensorLib}.

(** X8. The schedule of _contrib_conv2d_NCHWc with groups 1 requests the
    packed-layout template, with channels, the kernel size pair, strides and
    padding, for the named target.  With any other groups it fails with its
    [ValueError]; the failure is raised inside the target scope, and the
    state afterwards is the state before: the scope has been left and no
    request was made. *)
Theorem schedule_contrib_conv2d_NCHWc_outcome attrs outs target st padding
    strides dilation kh kw groups channels :
  conv2d_NCHWc_attrs attrs padding strides dilation kh kw groups channels →
  (groups = 1 →
     schedule_contrib_conv2d_NCHWc attrs outs target st =
       requested target
         (generic_schedule_conv2d_NCHWc channels (kh, kw) strides padding
            outs) st)
  ∧ (groups ≠ 1 →
     schedule_contrib_conv2d_NCHWc attrs outs target st =
       (st, inl (ValueError "not support group number > 1 for now"))).
Proof.
  intros (Hp & Hs & Hd & Hk & Hg & Hc).
  unfold schedule_contrib_conv2d_NCHWc. mstep.
  rewrite (bind_inr (unpack2 [kh; kw]) _ st st (kh, kw)) by reflexivity.
  cbv beta iota zeta. mstep. split.
  - intros ->. apply with_target_request.
  - intros Hn. apply Z.eqb_neq in Hn as ->. by destruct st.
Qed.

End NCHWcSchedule.

Section Transpose.
Context `{TensorLib}.

(** X9. conv2d_transpose checks layout, dilation and groups in this order,
    each with its own assertion message: a layout other than "NCHW" fails
    first, then a dilation other than (1, 1), then groups other than 1.  No
    call is made in any of the three cases. *)
Theorem conv2d_transpose_rejections attrs inputs st padding strides dilation
    groups layout :
  conv2d_transpose_read attrs padding strides dilation groups layout →
  (layout ≠ NCHW →
     compute_conv2d_transpose attrs inputs st =
       (st, inl (AssertionError (Some "only support nchw for now"))))
  ∧ (layout = NCHW → dilation ≠ [1; 1] →
     compute_conv2d_transpose attrs inputs st =
       (st, inl (AssertionError (Some "not support dilate now"))))
  ∧ (layout = NCHW → dilation = [1; 1] → groups ≠ 1 →
     compute_conv2d_transpose attrs inputs st =
       (st, inl (AssertionError (Some "only support groups == 1 for now")))).
Proof.
  intros (Hp & Hs & Hd & Hg & Hl).
  unfold compute_conv2d_transpose. mstep. split; [|split].
  - intros Hn. by rewrite bool_decide_eq_false_2.
  - intros -> Hn. rewrite bool_decide_eq_true_2 by done.
    rewrite (bind_inr (py_assert true _) _ st st tt) by reflexivity.
    by rewrite bool_decide_eq_false_2.
  - intros -> -> Hn. rewrite !bool_decide_eq_true_2 by done.
    rewrite !(bind_inr (py_assert true _) _ st st tt) by reflexivity.
    by apply Z.eqb_neq in Hn as ->.
Qed.

(** X10. In a supported conv2d_transpose call, output_padding is only read
    after the transposed convolution and the bias step: with fewer than two
    components the call fails with [IndexError] with those calls made and no
    pad; with more than two, the pad uses the first two and ignores the
    rest. *)
Theorem conv2d_transpose_output_padding_arity attrs inputs st padding strides
    use_bias op data kernel bias :
  conv2d_transpose_attrs attrs padding strides use_bias op →
  inputs !! 0%nat = Some data →
  inputs !! 1%nat = Some kernel →
  (use_bias = true → inputs !! 2%nat = Some bias) →
  let conv := nn_conv2d_transpose_nchw data kernel strides padding in
  let expand := expand_dims bias 1 2 in
  let add := broadcast_add (topi conv) (topi expand) in
  let out := if use_bias then topi add else topi conv in
  let before_pad :=
    mkState (scope st)
      (trace st ++ Prim conv
         :: (if use_bias then [Prim expand; Prim add] else [])) in
  ((length op < 2)%nat →
     compute_conv2d_transpose attrs inputs st = (before_pad, inl IndexError))
  ∧ (∀ a b rest, op = a :: b :: rest →
       compute_conv2d_transpose attrs inputs st =
         (record (Prim (nn_pad out [0; 0; 0; 0] [0; 0; a; b])) before_pad,
          inr (topi (nn_pad out [0; 0; 0; 0] [0; 0; a; b])))).
Proof.
  intros (Hp & Hs & Hd & Hg & Hl & Hb & Ho) H0 H1 H2 conv expand add out
    before_pad.
  assert (compute_conv2d_transpose attrs inputs st =
            (op0 <- getitem op 0 ;;
             op1 <- getitem op 1 ;;
             call (nn_pad out [0; 0; 0; 0] [0; 0; op0; op1])) before_pad)
    as ->.
  { unfold compute_conv2d_transpose. mstep.
    rewrite bool_decide_eq_true_2 by done.
    rewrite (bind_inr (py_assert true _) _ st st tt) by reflexivity.
    rewrite (bind_inr (py_assert (bool_decide _) _) _ st st tt)
      by reflexivity.
    rewrite (bind_inr (py_assert (1 =? 1) _) _ st st tt) by reflexivity.
    mstep. subst before_pad out add expand conv.
    destruct use_bias.
    - specialize (H2 eq_refl).
      unfold bind at 1 2. unfold bind at 1. unfold bind at 1.
      unfold getitem at 1, get_int_tuple, call at 1 2, ret, record.
      rewrite H2, Ho. simpl. by rewrite <- !app_assoc.
    - unfold bind at 1 2. unfold get_int_tuple, ret, record.
      rewrite Ho. simpl. done. }
  split.
  - intros Hlen. destruct op as [|a [|b rest]]; [done|done|simpl in Hlen; lia].
  - by intros a b rest ->.
Qed.

End Transpose.

Section Agreement.
Context `{TensorLib}.

(** X11. For conv2d, _contrib_conv2d_NCHWc and conv2d_transpose alike:
    whenever the compute lowering returns, the schedule lowering of the same
    operator on the same attributes returns too, for any outputs, target and
    state, and the template it requests is the one that goes with the
    convolution the compute lowering called. *)
Theorem schedule_follows_compute attrs inputs st st' r outs target s0 :
  (compute_conv2d attrs inputs st = (st', inr r) →
     ∃ pre conv post tmpl,
       trace st' = trace st ++ pre ++ Prim conv :: post
       ∧ template_for conv outs = Some tmpl
       ∧ schedule_conv2d attrs outs target s0 = requested target tmpl s0)
  ∧ (compute_contrib_conv2d_NCHWc attrs inputs st = (st', inr r) →
     ∃ conv post tmpl,
       trace st' = trace st ++ Prim conv :: post
       ∧ template_for conv outs = Some tmpl
       ∧ schedule_contrib_conv2d_NCHWc attrs outs target s0 =
           requested target tmpl s0)
  ∧ (compute_conv2d_transpose attrs inputs st = (st', inr r) →
     ∃ conv post tmpl,
       trace st' = trace st ++ Prim conv :: post
       ∧ template_for conv outs = Some tmpl
       ∧ schedule_conv2d_transpose attrs outs target s0 =
           requested target tmpl s0).
Proof.
  split; [|split].
  - intros Hrun. apply compute_conv2d_returns in Hrun
      as (padding & strides & dh & dw & groups & channels & layout & data & w
          & kernel & conv & Ha & Hl & _ & _ & _ & _ & pre & post & Ht & _ & _
          & Hconv & _).
    destruct Ha as (_ & _ & _ & Hg & _ & Hlay).
    exists pre, conv, post.
    assert (∀ tmpl,
      (if (groups =? 1) && bool_decide (layout = NCHW)
       then generic_schedule_conv2d_nchw outs
       else if (groups =? 1) && bool_decide (layout = NHWC)
            then generic_schedule_conv2d_nhwc outs
            else generic_schedule_depthwise_conv2d_nchw outs) = tmpl →
      schedule_conv2d attrs outs target s0 = requested target tmpl s0)
      as Hsel.
    { intros tmpl <-. unfold schedule_conv2d. mstep.
      repeat case_match; apply with_target_request. }
    destruct Hconv as [[-> ->]|(Hn & _ & _ & ->)].
    + destruct Hl as [-> | ->]; eexists; (split; [done|]);
        (split; [reflexivity|]); by apply Hsel.
    + eexists. split; [done|]. split; [reflexivity|]. apply Hsel.
      by apply Z.eqb_neq in Hn as ->.
  - intros Hrun. apply compute_contrib_conv2d_NCHWc_returns in Hrun
      as (padding & strides & kh & kw & channels & data & kernel & Ha & _ & _
          & _ & Hout).
    pose proof (proj1 (schedule_contrib_conv2d_NCHWc_outcome attrs outs
                         target s0 _ _ _ _ _ _ _ Ha) eq_refl) as Hs.
    destruct Hout as [(_ & _ & Ht)|(bias & _ & _ & _ & Ht)];
      eexists _, _, _; (split; [exact Ht|]); by split.
  - intros Hrun.
    unfold compute_conv2d_transpose in Hrun.
    returns_step Hrun as padding Hp. returns_step Hrun as strides Hs.
    returns_step Hrun as dilation Hdil. returns_step Hrun as groups Hg.
    returns_step Hrun as layout Hlay. returns_step Hrun as u1 Ha1.
    returns_step Hrun as u2 Ha2. returns_step Hrun as u3 Ha3.
    returns_step Hrun as data Hd. returns_step Hrun as kernel Hk.
    returns_step Hrun as out Hc. apply call_returns in Hc as [-> ->].
    assert (emits (λ _, True)
              (use_bias <- get_bool attrs "use_bias" ;;
               out <- (if use_bias then
                         bias <- getitem inputs 2 ;;
                         bias <- call (expand_dims bias 1 2) ;;
                         call (broadcast_add
                                 (topi (nn_conv2d_transpose_nchw data kernel
                                          strides padding)) bias)
                       else ret (topi (nn_conv2d_transpose_nchw data kernel
                                         strides padding))) ;;
               output_padding <- get_int_tuple attrs "output_padding" ;;
               op0 <- getitem output_padding 0 ;;
               op1 <- getitem output_padding 1 ;;
               call (nn_pad out [0; 0; 0; 0] [0; 0; op0; op1]))) as Hem.
    { apply emits_bind; [apply emits_get_bool|]. intros b.
      apply emits_bind.
      { destruct b; repeat first
          [ apply emits_getitem | by apply emits_call | apply emits_ret
          | apply emits_bind; [|intros ?] ]. }
      intros o. apply emits_bind.
      { intros s. unfold get_int_tuple.
        exists []. rewrite app_nil_r. by repeat case_match. }
      intros op. repeat first
        [ apply emits_getitem | by apply emits_call
        | apply emits_bind; [|intros ?] ]. }
    destruct (Hem (record (Prim (nn_conv2d_transpose_nchw data kernel strides
                                   padding)) st)) as (post & Ht & _).
    rewrite Hrun in Ht. simpl in Ht.
    eexists _, post, _. split; [by rewrite Ht, <- app_assoc|].
    split; [reflexivity|]. apply with_target_request.
Qed.

End Agreement.

Section Balance.
Context `{TensorLib}.

Lemma reads_only_get_int attrs key : reads_only (get_int attrs key).
Proof.
  intros st. unfold get_int.
  destruct (attrs !! key) as [[]|]; first [by left; eexists|by right; eexists].
Qed.

Lemma reads_only_get_int_tuple attrs key :
  reads_only (get_int_tuple attrs key).
Proof.
  intros st. unfold get_int_tuple.
  destruct (attrs !! key) as [[]|]; first [by left; eexists|by right; eexists].
Qed.

Lemma reads_only_attrs_getitem attrs key :
  reads_only (attrs_getitem attrs key).
Proof.
  intros st. unfold attrs_getitem.
  destruct (attrs !! key); first [by left; eexists|by right; eexists].
Qed.

Lemma reads_only_unpack2 t : reads_only (unpack2 t).
Proof.
  intros st. destruct t as [|? [|? [|? ?]]];
    first [by left; eexists|by right; eexists].
Qed.

Lemma one_request_bind {A} target (m : M A) (k : A → M Schedule) :
  reads_only m → (∀ a, one_request target (k a)) →
  one_request target (bind m k).
Proof.
  intros Hm Hk st. unfold bind.
  destruct (Hm st) as [[e ->]|[a ->]]; [left; by eexists|apply Hk].
Qed.

Lemma one_request_with_target_request target s :
  one_request target (with_target target (request s)).
Proof. intros st. right. eexists. apply with_target_request. Qed.

Lemma one_request_with_target_raise target e :
  one_request target (with_target target (raise e)).
Proof. intros [sc tr]. left. by eexists. Qed.

(** X12. Every schedule function nn.py defines either fails and leaves the
    state as it found it, or returns after exactly one request, made with the
    named target as current target, and leaves the scope stack as it found
    it.  None ever calls a tensor-expression primitive. *)
Theorem schedule_functions_balanced :
  Forall (λ nf : string * (AttrDict → list Tensor → string → M Schedule),
            ∀ attrs outs target, one_request target (nf.2 attrs outs target))
    nn_schedule_functions.
Proof.
  assert (∀ attrs outs target,
            one_request target (schedule_conv2d attrs outs target)) as Hconv.
  { intros attrs outs target. unfold schedule_conv2d.
    apply one_request_bind; [apply reads_only_get_int|]. intros groups.
    apply one_request_bind; [apply reads_only_attrs_getitem|]. intros layout.
    repeat case_match; apply one_request_with_target_request. }
  assert (∀ attrs outs target,
            one_request target
              (schedule_contrib_conv2d_NCHWc attrs outs target)) as Hpacked.
  { intros attrs outs target. unfold schedule_contrib_conv2d_NCHWc.
    apply one_request_bind; [apply reads_only_get_int|]. intros groups.
    apply one_request_bind; [apply reads_only_get_int_tuple|]. intros ks.
    apply one_request_bind; [apply reads_only_unpack2|]. intros [kh kw].
    apply one_request_bind; [apply reads_only_get_int|]. intros oc.
    apply one_request_bind; [apply reads_only_get_int_tuple|]. intros pad.
    apply one_request_bind; [apply reads_only_get_int_tuple|]. intros str.
    case_match;
      [apply one_request_with_target_request
      |apply one_request_with_target_raise]. }
  unfold nn_schedule_functions.
  repeat (apply Forall_cons_2;
          [first [ exact Hconv | exact Hpacked
                 | intros attrs outs target;
                   apply one_request_with_target_request ]|]).
  apply Forall_nil_2.
Qed.

End Balance.

(** ** The other slots of the registry *)

(** A registration of one slot, seen through another. *)
Ltac slot_after_register :=
  intros; unfold compute_of, schedule_of, alter_op_layout_of, pattern_of,
    register_compute, register_schedule, register_alter_op_layout,
    register_pattern, entry;
  rewrite lookup_insert; case_decide; subst; simpl;
  try match goal with |- context [?reg !! ?n] => destruct (reg !! n) end;
  done.

Lemma schedule_of_register_schedule name f reg name' :
  schedule_of (register_schedule name f reg) name' =
    if decide (name = name') then Some f else schedule_of reg name'.
Proof. slot_after_register. Qed.

Lemma schedule_of_register_pattern name p reg name' :
  schedule_of (register_pattern name p reg) name' = schedule_of reg name'.
Proof. slot_after_register. Qed.

Lemma schedule_of_register_compute name f reg name' :
  schedule_of (register_compute name f reg) name' = schedule_of reg name'.
Proof. slot_after_register. Qed.

Lemma schedule_of_register_alter_op_layout name f reg name' :
  schedule_of (register_alter_op_layout name f reg) name' =
    schedule_of reg name'.
Proof. slot_after_register. Qed.

Lemma compute_of_register_compute name f reg name' :
  compute_of (register_compute name f reg) name' =
    if decide (name = name') then Some f else compute_of reg name'.
Proof. slot_after_register. Qed.

Lemma compute_of_register_pattern name p reg name' :
  compute_of (register_pattern name p reg) name' = compute_of reg name'.
Proof. slot_after_register. Qed.

Lemma compute_of_register_schedule name f reg name' :
  compute_of (register_schedule name f reg) name' = compute_of reg name'.
Proof. slot_after_register. Qed.

Lemma compute_of_register_alter_op_layout name f reg name' :
  compute_of (register_alter_op_layout name f reg) name' =
    compute_of reg name'.
Proof. slot_after_register. Qed.

Lemma alter_op_layout_of_register_alter_op_layout name f reg name' :
  alter_op_layout_of (register_alter_op_layout name f reg) name' =
    if decide (name = name') then Some f else alter_op_layout_of reg name'.
Proof. slot_after_register. Qed.

Lemma alter_op_layout_of_register_pattern name p reg name' :
  alter_op_layout_of (register_pattern name p reg) name' =
    alter_op_layout_of reg name'.
Proof. slot_after_register. Qed.

Lemma alter_op_layout_of_register_schedule name f reg name' :
  alter_op_layout_of (register_schedule name f reg) name' =
    alter_op_layout_of reg name'.
Proof. slot_after_register. Qed.

Lemma alter_op_layout_of_register_compute name f reg name' :
  alter_op_layout_of (register_compute name f reg) name' =
    alter_op_layout_of reg name'.
Proof. slot_after_register. Qed.

Lemma lookup_register_compute_ne name f reg name' :
  name ≠ name' → register_compute name f reg !! name' = reg !! name'.
Proof. intros. unfold register_compute. by rewrite lookup_insert_ne. Qed.

Lemma lookup_register_schedule_ne name f reg name' :
  name ≠ name' → register_schedule name f reg !! name' = reg !! name'.
Proof. intros. unfold register_schedule. by rewrite lookup_insert_ne. Qed.

Lemma lookup_register_alter_op_layout_ne name f reg name' :
  name ≠ name' →
  register_alter_op_layout name f reg !! name' = reg !! name'.
Proof.
  intros. unfold register_alter_op_layout. by rewrite lookup_insert_ne.
Qed.

Lemma lookup_register_pattern_ne name p reg name' :
  name ≠ name' → register_pattern name p reg !! name' = reg !! name'.
Proof. intros. unfold register_pattern. by rewrite lookup_insert_ne. Qed.

Lemma classify_None_ne name :
  classify name = None →
  Forall (λ p, p.1 ≠ name) classification_table.
Proof.
  intros Hn. unfold classification_table.
  repeat (apply Forall_cons_2;
          [intros <-; by vm_compute in Hn|]).
  apply Forall_nil_2.
Qed.

(** X13. Importing nn.py into any registry leaves every operator of the
    table with a schedule; sets the alter-layout slot of conv2d and of no
    other name; leaves the compute slot of every name but dense, conv2d,
    _contrib_conv2d_NCHWc, conv2d_transpose, lrn and l2_normalize as it was;
    and leaves the entries of names outside the table untouched. *)
Theorem import_nn_slots (reg : Registry) (name : string) :
  (is_Some (classify name) → is_Some (schedule_of (import_nn reg) name))
  ∧ alter_op_layout_of (import_nn reg) name =
      (if decide (name = "conv2d") then Some py_alter_conv2d_layout
       else alter_op_layout_of reg name)
  ∧ (name ∉ ["dense"; "conv2d"; "_contrib_conv2d_NCHWc"; "conv2d_transpose";
             "lrn"; "l2_normalize"] →
     compute_of (import_nn reg) name = compute_of reg name)
  ∧ (classify name = None → import_nn reg !! name = reg !! name).
Proof.
  split; [|split; [|split]].
  - intros Hin. unfold import_nn, nn_registrations. cbn [foldl].
    repeat first
      [ rewrite schedule_of_register_schedule
      | rewrite schedule_of_register_pattern
      | rewrite schedule_of_register_compute
      | rewrite schedule_of_register_alter_op_layout ].
    repeat (case_decide; [by eexists|]).
    destruct Hin as [p Hp]. exfalso. revert Hp.
    unfold classify, classification_table.
    cbn [list_to_map foldr uncurry fst snd].
    by rewrite !lookup_insert_ne, lookup_empty by done.
  - unfold import_nn, nn_registrations. cbn [foldl].
    repeat first
      [ rewrite alter_op_layout_of_register_alter_op_layout
      | rewrite alter_op_layout_of_register_pattern
      | rewrite alter_op_layout_of_register_schedule
      | rewrite alter_op_layout_of_register_compute ].
    by repeat case_decide.
  - intros Hn. unfold import_nn, nn_registrations. cbn [foldl].
    repeat first
      [ rewrite compute_of_register_compute
      | rewrite compute_of_register_pattern
      | rewrite compute_of_register_schedule
      | rewrite compute_of_register_alter_op_layout ].
    repeat (case_decide; [subst; exfalso; apply Hn; set_solver|]).
    done.
  - intros Hn. apply classify_None_ne in Hn.
    unfold classification_table in Hn.
    repeat (apply Forall_cons_1 in Hn as [? Hn]). simpl in *.
    unfold import_nn, nn_registrations. cbn [foldl].
    repeat first
      [ rewrite lookup_register_compute_ne by done
      | rewrite lookup_register_schedule_ne by done
      | rewrite lookup_register_alter_op_layout_ne by done
      | rewrite lookup_register_pattern_ne by done ].
    done.
Qed.

(** ** The theorems at work on the recording library *)

#[local] Existing Instance SymLib.

(** A layout that is not supported stops the call at once. *)
Lemma conv2d_layout_check_witness :
  conv2d_attrs (conv2d_node [1; 1] 1 4 "NCWH" false) [0; 0] [1; 1] [1; 1] 1 4
    (VStr "NCWH")
  ∧ compute_conv2d (H:=SymLib) (conv2d_node [1; 1] 1 4 "NCWH" false)
      [sample_data; sample_weight] st0 = (st0, inl (AssertionError None)).
Proof.
  assert (conv2d_attrs (conv2d_node [1; 1] 1 4 "NCWH" false) [0; 0] [1; 1]
            [1; 1] 1 4 (VStr "NCWH")) as Ha by (by repeat split).
  split; [exact Ha|].
  by apply (conv2d_layout_check (H:=SymLib) _ [sample_data; sample_weight]
              st0 _ _ _ _ _ _ Ha).
Defined.

(** Dilation (0, 1) under a supported layout: the dilation check fails and
    nothing has been called. *)
Lemma conv2d_nonpositive_dilation_witness :
  conv2d_attrs (conv2d_node [0; 1] 1 4 "NCHW" false) [0; 0] [1; 1] [0; 1] 1 4
    NCHW
  ∧ (0 < 1 ∨ 1 < 1)
  ∧ compute_conv2d (H:=SymLib) (conv2d_node [0; 1] 1 4 "NCHW" false)
      [sample_data; sample_weight] st0 =
      (st0, inl (ValueError "dilation should be positive value"))
  ∧ trace (compute_conv2d (H:=SymLib) (conv2d_node [0; 1] 1 4 "NCHW" false)
             [sample_data; sample_weight] st0).1 = [].
Proof.
  assert (conv2d_attrs (conv2d_node [0; 1] 1 4 "NCHW" false) [0; 0] [1; 1]
            [0; 1] 1 4 NCHW) as Ha by (by repeat split).
  assert (0 < 1 ∨ 1 < 1) as Hd by (left; lia).
  split; [exact Ha|]. split; [exact Hd|].
  exact (conv2d_nonpositive_dilation (H:=SymLib) _
           [sample_data; sample_weight] st0 _ _ _ _ _ _ _ Ha
           (or_introl eq_refl) Hd).
Defined.

(** Dilation (0, 1) under a layout that is not supported: the call fails on
    the layout assertion, which comes first, and not on the dilation. *)
Lemma conv2d_bad_layout_hides_bad_dilation :
  conv2d_attrs (conv2d_node [0; 1] 1 4 "NCWH" false) [0; 0] [1; 1] [0; 1] 1 4
    (VStr "NCWH")
  ∧ 0 < 1
  ∧ compute_conv2d (H:=SymLib) (conv2d_node [0; 1] 1 4 "NCWH" false)
      [sample_data; sample_weight] st0 = (st0, inl (AssertionError None))
  ∧ (compute_conv2d (H:=SymLib) (conv2d_node [0; 1] 1 4 "NCWH" false)
       [sample_data; sample_weight] st0).2 ≠
      inl (ValueError "dilation should be positive value").
Proof. by repeat split. Qed.

(** groups = 4 on four input channels and four output channels is the
    depthwise case; groups = 2 and groups = 0 there are refused. *)
Lemma conv2d_group_dispatch_witness :
  conv2d_attrs (conv2d_node [1; 1] 4 4 "NCHW" false) [0; 0] [1; 1] [1; 1] 4 4
    NCHW
  ∧ conv2d_kernel (H:=SymLib) NCHW [1; 1] [sample_data; sample_weight] st0 =
      (st0, inr sample_weight)
  ∧ (∃ rest,
       trace (compute_conv2d (H:=SymLib)
                (conv2d_node [1; 1] 4 4 "NCHW" false)
                [sample_data; sample_weight] st0).1 =
         trace st0
           ++ Prim (nn_depthwise_conv2d_nchw sample_data sample_weight
                      [1; 1] [0; 0]) :: rest
       ∧ Forall bias_step rest)
  ∧ compute_conv2d (H:=SymLib) (conv2d_node [1; 1] 2 4 "NCHW" false)
      [sample_data; sample_weight] st0 =
      (st0, inl (ValueError "not support arbitrary group number for now"))
  ∧ compute_conv2d (H:=SymLib) (conv2d_node [1; 1] 0 4 "NCHW" false)
      [sample_data; sample_weight] st0 =
      (st0, inl (ValueError "not support arbitrary group number for now")).
Proof.
  assert (∀ g, conv2d_attrs (conv2d_node [1; 1] g 4 "NCHW" false) [0; 0]
                 [1; 1] [1; 1] g 4 NCHW) as Ha by (by repeat split).
  assert (conv2d_kernel (H:=SymLib) NCHW [1; 1] [sample_data; sample_weight]
            st0 = (st0, inr sample_weight)) as Hk by reflexivity.
  split; [exact (Ha 4)|]. split; [exact Hk|]. split; [|split].
  - refine (proj2 (proj1 (proj2 (conv2d_group_dispatch (H:=SymLib) _
              [sample_data; sample_weight] st0 st0 _ _ _ _ _ _ sample_data
              sample_weight (Ha 4) (or_introl eq_refl) Hk eq_refl))
              4 _ eq_refl eq_refl eq_refl)).
    lia.
  - refine (proj2 (proj2 (conv2d_group_dispatch (H:=SymLib) _
              [sample_data; sample_weight] st0 st0 _ _ _ _ _ _ sample_data
              sample_weight (Ha 2) (or_introl eq_refl) Hk eq_refl))
              4 _ eq_refl _).
    + lia.
    + simpl. lia.
  - refine (proj2 (proj2 (conv2d_group_dispatch (H:=SymLib) _
              [sample_data; sample_weight] st0 st0 _ _ _ _ _ _ sample_data
              sample_weight (Ha 0) (or_introl eq_refl) Hk eq_refl))
              4 _ eq_refl _).
    + lia.
    + simpl. lia.
Defined.

(** groups = 1 on one input channel and one output channel: groups equals
    both counts, and the call made is the dense convolution, not the
    depthwise one.  And groups = 2 on four channels with dilation (0, 1): the
    call fails on the dilation, which is checked first, not on the
    grouping. *)
Lemma conv2d_single_channel_is_dense :
  (conv2d_attrs (conv2d_node [1; 1] 1 1 "NCHW" false) [0; 0] [1; 1] [1; 1] 1
     1 NCHW
   ∧ get_const_int <$> shape gray_data !! 1%nat = Some 1
   ∧ trace (compute_conv2d (H:=SymLib) (conv2d_node [1; 1] 1 1 "NCHW" false)
              [gray_data; gray_weight] st0).1 =
       [Prim (nn_conv2d gray_data gray_weight [1; 1] [0; 0] NCHW)]
   ∧ ¬ Exists depthwise_call
         (trace (compute_conv2d (H:=SymLib)
                   (conv2d_node [1; 1] 1 1 "NCHW" false)
                   [gray_data; gray_weight] st0).1))
  ∧ (conv2d_attrs (conv2d_node [0; 1] 2 4 "NCHW" false) [0; 0] [1; 1] [0; 1]
       2 4 NCHW
     ∧ get_const_int <$> shape sample_data !! 1%nat = Some 4
     ∧ (compute_conv2d (H:=SymLib) (conv2d_node [0; 1] 2 4 "NCHW" false)
          [sample_data; sample_weight] st0).2 =
         inl (ValueError "dilation should be positive value")
     ∧ (compute_conv2d (H:=SymLib) (conv2d_node [0; 1] 2 4 "NCHW" false)
          [sample_data; sample_weight] st0).2 ≠
         inl (ValueError "not support arbitrary group number for now")).
Proof.
  split; [|by repeat split].
  repeat split.
  intros Hx. vm_compute in Hx.
  inversion Hx as [? ? Hd|? ? Hd]; [exact Hd | inversion Hd].
Qed.

(** Under "NHWC" with groups = 4, four rows and four output channels, the
    depthwise-NCHW convolution is called. *)
Lemma conv2d_depthwise_ignores_layout_witness :
  conv2d_attrs (conv2d_node [1; 1] 4 4 "NHWC" false) [0; 0] [1; 1] [1; 1] 4 4
    NHWC
  ∧ conv2d_kernel (H:=SymLib) NHWC [1; 1] [sample_data; sample_weight] st0 =
      (st0, inr sample_weight)
  ∧ ∃ rest,
      trace (compute_conv2d (H:=SymLib)
               (conv2d_node [1; 1] 4 4 "NHWC" false)
               [sample_data; sample_weight] st0).1 =
        trace st0
          ++ Prim (nn_depthwise_conv2d_nchw sample_data sample_weight
                     [1; 1] [0; 0]) :: rest
      ∧ Forall bias_step rest.
Proof.
  assert (conv2d_attrs (conv2d_node [1; 1] 4 4 "NHWC" false) [0; 0] [1; 1]
            [1; 1] 4 4 NHWC) as Ha by (by repeat split).
  assert (conv2d_kernel (H:=SymLib) NHWC [1; 1] [sample_data; sample_weight]
            st0 = (st0, inr sample_weight)) as Hk by reflexivity.
  split; [exact Ha|]. split; [exact Hk|].
  refine (proj1 (conv2d_depthwise_ignores_layout (H:=SymLib) _
            [sample_data; sample_weight] st0 st0 _ _ _ _ _ sample_data
            sample_weight 4 Ha Hk eq_refl eq_refl _ eq_refl eq_refl)).
  lia.
Defined.

(** Under "NHWC" with groups = 1 on a one-row image and one output channel,
    groups equals both the extent of axis 1 and the channels attribute, and
    the call made is the dense convolution under "NHWC".  And under "NHWC"
    with groups = 4 on four rows and four output channels but dilation
    (0, 1), the call fails on the dilation and makes no call at all. *)
Lemma conv2d_nhwc_single_row_is_dense :
  (conv2d_attrs (conv2d_node [1; 1] 1 1 "NHWC" false) [0; 0] [1; 1] [1; 1] 1
     1 NHWC
   ∧ get_const_int <$> shape row_data !! 1%nat = Some 1
   ∧ trace (compute_conv2d (H:=SymLib) (conv2d_node [1; 1] 1 1 "NHWC" false)
              [row_data; row_weight] st0).1 =
       [Prim (nn_conv2d row_data row_weight [1; 1] [0; 0] NHWC)]
   ∧ ¬ Exists depthwise_call
         (trace (compute_conv2d (H:=SymLib)
                   (conv2d_node [1; 1] 1 1 "NHWC" false)
                   [row_data; row_weight] st0).1))
  ∧ (conv2d_attrs (conv2d_node [0; 1] 4 4 "NHWC" false) [0; 0] [1; 1] [0; 1]
       4 4 NHWC
     ∧ get_const_int <$> shape sample_data !! 1%nat = Some 4
     ∧ compute_conv2d (H:=SymLib) (conv2d_node [0; 1] 4 4 "NHWC" false)
         [sample_data; sample_weight] st0 =
         (st0, inl (ValueError "dilation should be positive value"))).
Proof.
  split; [|by repeat split].
  repeat split.
  intros Hx. vm_compute in Hx.
  inversion Hx as [? ? Hd|? ? Hd]; [exact Hd | inversion Hd].
Qed.

(** Dilation (1, 1): the weight itself is the kernel. *)
Lemma conv2d_unit_dilation_kernel_witness :
  conv2d_attrs (conv2d_node [1; 1] 1 4 "NCHW" true) [0; 0] [1; 1] [1; 1] 1 4
    NCHW
  ∧ [sample_data; sample_weight; sample_bias] !! 1%nat = Some sample_weight
  ∧ conv2d_kernel (H:=SymLib) NCHW [1; 1]
      [sample_data; sample_weight; sample_bias] st0 = (st0, inr sample_weight)
  ∧ ∃ evs,
      trace (compute_conv2d (H:=SymLib) (conv2d_node [1; 1] 1 4 "NCHW" true)
               [sample_data; sample_weight; sample_bias] st0).1 =
        trace st0 ++ evs
      ∧ Forall (λ ev, conv_on_kernel sample_weight ev ∨ bias_step ev) evs.
Proof.
  assert (conv2d_attrs (conv2d_node [1; 1] 1 4 "NCHW" true) [0; 0] [1; 1]
            [1; 1] 1 4 NCHW) as Ha by (by repeat split).
  split; [exact Ha|]. split; [reflexivity|].
  pose proof (conv2d_unit_dilation_kernel (H:=SymLib) _
                [sample_data; sample_weight; sample_bias] st0 _ _ _ _ _
                sample_weight Ha eq_refl) as (Hk & Hev & _).
  exact (conj Hk Hev).
Defined.

(** Dilation (2, 1) under "NCHW": the weight is dilated with strides
    [1, 1, 2, 1]. *)
Lemma conv2d_dilates_kernel_witness :
  conv2d_attrs (conv2d_node [2; 1] 1 4 "NCHW" false) [0; 0] [1; 1] [2; 1] 1 4
    NCHW
  ∧ 1 ≤ 2 ∧ 1 ≤ 1 ∧ (2, 1) ≠ (1, 1)
  ∧ [sample_data; sample_weight] !! 1%nat = Some sample_weight
  ∧ conv2d_kernel (H:=SymLib) NCHW [2; 1] [sample_data; sample_weight] st0 =
      (record (Prim (nn_dilate sample_weight [1; 1; 2; 1])) st0,
       inr (made_by (nn_dilate sample_weight [1; 1; 2; 1])))
  ∧ ∃ rest,
      trace (compute_conv2d (H:=SymLib) (conv2d_node [2; 1] 1 4 "NCHW" false)
               [sample_data; sample_weight] st0).1 =
        trace st0 ++ Prim (nn_dilate sample_weight [1; 1; 2; 1]) :: rest
      ∧ Forall (λ ev, conv_on_kernel
                        (made_by (nn_dilate sample_weight [1; 1; 2; 1])) ev
                      ∨ bias_step ev) rest.
Proof.
  assert (conv2d_attrs (conv2d_node [2; 1] 1 4 "NCHW" false) [0; 0] [1; 1]
            [2; 1] 1 4 NCHW) as Ha by (by repeat split).
  assert (1 ≤ 2) as H2 by lia.
  assert (1 ≤ 1) as H1 by lia.
  assert ((2, 1) ≠ (1, 1)) as Hne by (intros [=]).
  split; [exact Ha|]. split; [exact H2|]. split; [exact H1|].
  split; [exact Hne|]. split; [reflexivity|].
  exact (proj1 (conv2d_dilates_kernel (H:=SymLib) _
                  [sample_data; sample_weight] st0 _ _ _ _ _ _ _
                  sample_weight Ha H2 H1 Hne eq_refl) eq_refl).
Defined.

(** output_padding (1, 2), with bias: convolution, bias step, then the pad
    with (0, 0, 1, 2) after. *)
Lemma conv2d_transpose_output_padding_witness :
  conv2d_transpose_node true [1; 2] !! "output_padding" =
    Some (VTuple [1; 2])
  ∧ conv2d_transpose_attrs (conv2d_transpose_node true [1; 2]) [0; 0] [2; 2]
      true [1; 2]
  ∧ (let conv := nn_conv2d_transpose_nchw sample_data sample_weight [2; 2]
                   [0; 0] in
     let expand := expand_dims sample_bias 1 2 in
     let add := broadcast_add (made_by conv) (made_by expand) in
     let pad := nn_pad (made_by add) [0; 0; 0; 0] [0; 0; 1; 2] in
     compute_conv2d_transpose (H:=SymLib)
       (conv2d_transpose_node true [1; 2])
       [sample_data; sample_weight; sample_bias] st0 =
       (mkState [] [Prim conv; Prim expand; Prim add; Prim pad],
        inr (made_by pad))).
Proof.
  assert (conv2d_transpose_attrs (conv2d_transpose_node true [1; 2]) [0; 0]
            [2; 2] true [1; 2]) as Ha by (by repeat split).
  split; [reflexivity|]. split; [exact Ha|].
  exact (proj1 (proj2 (conv2d_transpose_output_padding (H:=SymLib)
                         (conv2d_transpose_node true [1; 2])
                         [sample_data; sample_weight; sample_bias] st0 1 2
                         eq_refl))
           [0; 0] [2; 2] true sample_data sample_weight sample_bias Ha
           eq_refl eq_refl (λ _, eq_refl)).
Defined.

(** groups = 4 under "NHWC": the depthwise-NCHW template, requested with the
    target "llvm" current. *)
Lemma schedule_conv2d_selects_witness :
  conv2d_node [1; 1] 4 4 "NHWC" false !! "groups" = Some (VInt 4)
  ∧ conv2d_node [1; 1] 4 4 "NHWC" false !! "layout" = Some NHWC
  ∧ schedule_conv2d (H:=SymLib) (conv2d_node [1; 1] 4 4 "NHWC" false)
      [sample_data] "llvm" st0 =
      (record (Sched (Some "llvm")
                 (generic_schedule_depthwise_conv2d_nchw [sample_data])) st0,
       inr (scheduled (Some "llvm")
              (generic_schedule_depthwise_conv2d_nchw [sample_data]))).
Proof.
  split; [reflexivity|]. split; [reflexivity|].
  refine (proj1 (proj2 (proj2 (proj2 (schedule_conv2d_selects (H:=SymLib)
            (conv2d_node [1; 1] 4 4 "NHWC" false) [sample_data] "llvm" st0 4
            NHWC eq_refl eq_refl)))) _).
  lia.
Defined.

(** Two inputs and three inputs give the same result without bias. *)
Lemma no_bias_reads_two_inputs_witness :
  conv2d_node [1; 1] 1 4 "NCHW" false !! "use_bias" = Some (VBool false)
  ∧ compute_dense (H:=SymLib) (conv2d_node [1; 1] 1 4 "NCHW" false)
      [sample_data; sample_weight] st0 =
    compute_dense (H:=SymLib) (conv2d_node [1; 1] 1 4 "NCHW" false)
      [sample_data; sample_weight; sample_bias] st0
  ∧ compute_conv2d (H:=SymLib) (conv2d_node [1; 1] 1 4 "NCHW" false)
      [sample_data; sample_weight] st0 =
    compute_conv2d (H:=SymLib) (conv2d_node [1; 1] 1 4 "NCHW" false)
      [sample_data; sample_weight; sample_bias] st0.
Proof.
  split; [reflexivity|].
  pose proof (no_bias_reads_two_inputs (H:=SymLib)
                (conv2d_node [1; 1] 1 4 "NCHW" false)
                [sample_data; sample_weight]
                [sample_data; sample_weight; sample_bias] st0
                eq_refl eq_refl eq_refl) as (Hd & Hc & _).
  exact (conj Hd Hc).
Defined.

(** dense with bias, on three inputs and on two. *)
Lemma compute_dense_with_bias_witness :
  dense_node true !! "use_bias" = Some (VBool true)
  ∧ compute_dense (H:=SymLib) (dense_node true)
      [sample_data; sample_weight; sample_bias] st0 =
      (record (Prim (nn_dense sample_data sample_weight (Some sample_bias)))
         st0,
       inr (made_by (nn_dense sample_data sample_weight (Some sample_bias))))
  ∧ compute_dense (H:=SymLib) (dense_node true) [sample_data; sample_weight]
      st0 = (st0, inl IndexError).
Proof.
  split; [reflexivity|].
  pose proof (compute_dense_with_bias (H:=SymLib) (dense_node true)
                [sample_data; sample_weight; sample_bias] st0 eq_refl)
    as [H3 _].
  pose proof (compute_dense_with_bias (H:=SymLib) (dense_node true)
                [sample_data; sample_weight] st0 eq_refl) as [_ H2].
  split.
  - exact (H3 _ _ _ eq_refl eq_refl eq_refl).
  - apply H2. simpl. lia.
Defined.

(** A conv2d call under "NHWC" with dilation (2, 2) and bias returns, so it
    went through a convolution. *)
Lemma compute_conv2d_returns_witness :
  ∃ st' r,
    compute_conv2d (H:=SymLib) (conv2d_node [2; 2] 1 4 "NHWC" true)
      [sample_data; sample_weight; sample_bias] st0 = (st', inr r)
    ∧ ∃ pre conv post, trace st' = trace st0 ++ pre ++ Prim conv :: post.
Proof.
  eexists _, _. split; [vm_compute; reflexivity|].
  destruct (compute_conv2d_returns (H:=SymLib)
              (conv2d_node [2; 2] 1 4 "NHWC" true)
              [sample_data; sample_weight; sample_bias] st0 _ _ eq_refl)
    as (padding & strides & dh & dw & groups & channels & layout & data & w
        & kernel & conv & _ & _ & _ & _ & _ & _ & pre & post & Ht & _).
  by exists pre, conv, post.
Defined.

(** use_bias true on two inputs: the convolution is in the trace when the
    call fails. *)
Lemma conv2d_bias_fails_after_convolution_witness :
  conv2d_attrs (conv2d_node [1; 1] 1 4 "NCHW" true) [0; 0] [1; 1] [1; 1] 1 4
    NCHW
  ∧ conv2d_node [1; 1] 1 4 "NCHW" true !! "use_bias" = Some (VBool true)
  ∧ [sample_data; sample_weight] !! 2%nat = None
  ∧ compute_conv2d (H:=SymLib) (conv2d_node [1; 1] 1 4 "NCHW" true)
      [sample_data; sample_weight] st0 =
      (record (Prim (nn_conv2d sample_data sample_weight [1; 1] [0; 0] NCHW))
         st0,
       inl IndexError).
Proof.
  assert (conv2d_attrs (conv2d_node [1; 1] 1 4 "NCHW" true) [0; 0] [1; 1]
            [1; 1] 1 4 NCHW) as Ha by (by repeat split).
  split; [exact Ha|]. split; [reflexivity|]. split; [reflexivity|].
  exact (proj1 (conv2d_bias_fails_after_convolution (H:=SymLib) _
                  [sample_data; sample_weight] st0 st0 _ _ _ _ _ _ _
                  sample_weight _ Ha (or_introl eq_refl) eq_refl eq_refl
                  eq_refl eq_refl)).
Defined.

(** A dilation of one component. *)
Lemma conv2d_dilation_arity_witness :
  conv2d_attrs (conv2d_node [2] 1 4 "NCHW" false) [0; 0] [1; 1] [2] 1 4 NCHW
  ∧ length [2] ≠ 2%nat
  ∧ ∃ msg,
      compute_conv2d (H:=SymLib) (conv2d_node [2] 1 4 "NCHW" false)
        [sample_data; sample_weight] st0 = (st0, inl (ValueError msg)).
Proof.
  assert (conv2d_attrs (conv2d_node [2] 1 4 "NCHW" false) [0; 0] [1; 1] [2]
            1 4 NCHW) as Ha by (by repeat split).
  assert (length [2] ≠ 2%nat) as Hlen by (simpl; lia).
  split; [exact Ha|]. split; [exact Hlen|].
  exact (conv2d_dilation_arity (H:=SymLib) _ [sample_data; sample_weight]
           st0 _ _ _ _ _ _ Ha (or_introl eq_refl) Hlen).
Defined.

(** groups = 4 on a data tensor with one axis. *)
Lemma conv2d_grouped_needs_axis_1_witness :
  conv2d_attrs (conv2d_node [1; 1] 4 4 "NCHW" false) [0; 0] [1; 1] [1; 1] 4 4
    NCHW
  ∧ 4 ≠ 1 ∧ (length (shape flat_data) < 2)%nat
  ∧ compute_conv2d (H:=SymLib) (conv2d_node [1; 1] 4 4 "NCHW" false)
      [flat_data; sample_weight] st0 = (st0, inl IndexError).
Proof.
  assert (conv2d_attrs (conv2d_node [1; 1] 4 4 "NCHW" false) [0; 0] [1; 1]
            [1; 1] 4 4 NCHW) as Ha by (by repeat split).
  assert (4 ≠ 1) as Hg by lia.
  assert ((length (shape flat_data) < 2)%nat) as Hlen by (simpl; lia).
  split; [exact Ha|]. split; [exact Hg|]. split; [exact Hlen|].
  exact (conv2d_grouped_needs_axis_1 (H:=SymLib) _ [flat_data; sample_weight]
           st0 st0 _ _ _ _ _ _ flat_data sample_weight Ha
           (or_introl eq_refl) eq_refl eq_refl Hg Hlen).
Defined.

(** A packed-layout node with dilation (2, 2), and one with groups = 2. *)
Lemma conv2d_NCHWc_rejections_witness :
  conv2d_NCHWc_attrs (conv2d_NCHWc_node [2; 2] [3; 3] 1 false) [1; 1] [1; 1]
    [2; 2] 3 3 1 16
  ∧ compute_contrib_conv2d_NCHWc (H:=SymLib)
      (conv2d_NCHWc_node [2; 2] [3; 3] 1 false) [sample_data; sample_weight]
      st0 = (st0, inl (AssertionError (Some "not support dilate now")))
  ∧ compute_contrib_conv2d_NCHWc (H:=SymLib)
      (conv2d_NCHWc_node [1; 1] [3; 3] 2 false) [sample_data; sample_weight]
      st0 =
      (st0,
       inl (ValueError "not support arbitrary group number > 1 for now")).
Proof.
  assert (∀ d g, conv2d_NCHWc_attrs (conv2d_NCHWc_node d [3; 3] g false)
                   [1; 1] [1; 1] d 3 3 g 16) as Ha by (by repeat split).
  split; [exact (Ha [2; 2] 1)|]. split.
  - apply (proj1 (conv2d_NCHWc_rejections (H:=SymLib) _
                    [sample_data; sample_weight] st0 _ _ _ _ _ _ _
                    (Ha [2; 2] 1))).
    intros [=].
  - apply (proj2 (conv2d_NCHWc_rejections (H:=SymLib) _
                    [sample_data; sample_weight] st0 _ _ _ _ _ _ _
                    (Ha [1; 1] 2)) eq_refl).
    lia.
Defined.

(** A packed-layout call with bias returns after three calls. *)
Lemma compute_contrib_conv2d_NCHWc_returns_witness :
  ∃ st' r,
    compute_contrib_conv2d_NCHWc (H:=SymLib)
      (conv2d_NCHWc_node [1; 1] [3; 3] 1 true)
      [sample_data; sample_weight; sample_bias] st0 = (st', inr r)
    ∧ conv2d_NCHWc_node [1; 1] [3; 3] 1 true !! "groups" = Some (VInt 1)
    ∧ scope st' = scope st0.
Proof.
  eexists _, _. split; [vm_compute; reflexivity|].
  destruct (compute_contrib_conv2d_NCHWc_returns (H:=SymLib)
              (conv2d_NCHWc_node [1; 1] [3; 3] 1 true)
              [sample_data; sample_weight; sample_bias] st0 _ _ eq_refl)
    as (padding & strides & kh & kw & channels & data & kernel & Ha & _ & _
        & Hs & _).
  split; [|exact Hs]. by destruct Ha as (_ & _ & _ & _ & Hg & _).
Defined.

(** The packed-layout schedule with groups = 2 fails and leaves nothing
    behind; with groups = 1 it requests its template. *)
Lemma schedule_contrib_conv2d_NCHWc_outcome_witness :
  conv2d_NCHWc_attrs (conv2d_NCHWc_node [1; 1] [3; 3] 2 false) [1; 1] [1; 1]
    [1; 1] 3 3 2 16
  ∧ schedule_contrib_conv2d_NCHWc (H:=SymLib)
      (conv2d_NCHWc_node [1; 1] [3; 3] 2 false) [sample_data] "llvm" st0 =
      (st0, inl (ValueError "not support group number > 1 for now"))
  ∧ schedule_contrib_conv2d_NCHWc (H:=SymLib)
      (conv2d_NCHWc_node [1; 1] [3; 3] 1 false) [sample_data] "llvm" st0 =
      requested "llvm"
        (generic_schedule_conv2d_NCHWc 16 (3, 3) [1; 1] [1; 1] [sample_data])
        st0.
Proof.
  assert (∀ g, conv2d_NCHWc_attrs (conv2d_NCHWc_node [1; 1] [3; 3] g false)
                 [1; 1] [1; 1] [1; 1] 3 3 g 16) as Ha by (by repeat split).
  split; [exact (Ha 2)|]. split.
  - apply (proj2 (schedule_contrib_conv2d_NCHWc_outcome (H:=SymLib) _
                    [sample_data] "llvm" st0 _ _ _ _ _ _ _ (Ha 2))).
    lia.
  - exact (proj1 (schedule_contrib_conv2d_NCHWc_outcome (H:=SymLib) _
                    [sample_data] "llvm" st0 _ _ _ _ _ _ _ (Ha 1)) eq_refl).
Defined.

(** A transposed convolution under "NHWC" with groups = 2: the layout is what
    the call fails on. *)
Lemma conv2d_transpose_rejections_witness :
  conv2d_transpose_read
    (<["layout" := VStr "NHWC"]>
       (<["groups" := VInt 2]> (conv2d_transpose_node false [0; 0])))
    [0; 0] [2; 2] [1; 1] 2 NHWC
  ∧ compute_conv2d_transpose (H:=SymLib)
      (<["layout" := VStr "NHWC"]>
         (<["groups" := VInt 2]> (conv2d_transpose_node false [0; 0])))
      [sample_data; sample_weight] st0 =
      (st0, inl (AssertionError (Some "only support nchw for now")))
  ∧ compute_conv2d_transpose (H:=SymLib)
      (<["groups" := VInt 2]> (conv2d_transpose_node false [0; 0]))
      [sample_data; sample_weight] st0 =
      (st0, inl (AssertionError (Some "only support groups == 1 for now"))).
Proof.
  assert (conv2d_transpose_read
            (<["layout" := VStr "NHWC"]>
               (<["groups" := VInt 2]> (conv2d_transpose_node false [0; 0])))
            [0; 0] [2; 2] [1; 1] 2 NHWC) as Ha by (by repeat split).
  assert (conv2d_transpose_read
            (<["groups" := VInt 2]> (conv2d_transpose_node false [0; 0]))
            [0; 0] [2; 2] [1; 1] 2 NCHW) as Hb by (by repeat split).
  split; [exact Ha|]. split.
  - apply (proj1 (conv2d_transpose_rejections (H:=SymLib) _
                    [sample_data; sample_weight] st0 _ _ _ _ _ Ha)).
    intros [=].
  - apply (proj2 (proj2 (conv2d_transpose_rejections (H:=SymLib) _
                           [sample_data; sample_weight] st0 _ _ _ _ _ Hb))
             eq_refl eq_refl).
    lia.
Defined.

(** output_padding of one component, and of three. *)
Lemma conv2d_transpose_output_padding_arity_witness :
  conv2d_transpose_attrs (conv2d_transpose_node false [1]) [0; 0] [2; 2]
    false [1]
  ∧ (let conv := nn_conv2d_transpose_nchw sample_data sample_weight [2; 2]
                   [0; 0] in
     compute_conv2d_transpose (H:=SymLib) (conv2d_transpose_node false [1])
       [sample_data; sample_weight] st0 =
       (mkState [] [Prim conv], inl IndexError)
     ∧ compute_conv2d_transpose (H:=SymLib)
         (conv2d_transpose_node false [1; 2; 3]) [sample_data; sample_weight]
         st0 =
         (mkState []
            [Prim conv;
             Prim (nn_pad (made_by conv) [0; 0; 0; 0] [0; 0; 1; 2])],
          inr (made_by (nn_pad (made_by conv) [0; 0; 0; 0] [0; 0; 1; 2])))).
Proof.
  assert (∀ op, conv2d_transpose_attrs (conv2d_transpose_node false op)
                  [0; 0] [2; 2] false op) as Ha by (by repeat split).
  split; [exact (Ha [1])|]. split.
  - apply (proj1 (conv2d_transpose_output_padding_arity (H:=SymLib) _
                    [sample_data; sample_weight] st0 _ _ _ _ sample_data
                    sample_weight sample_bias (Ha [1]) eq_refl eq_refl
                    (λ e, match e with end))).
    simpl. lia.
  - exact (proj2 (conv2d_transpose_output_padding_arity (H:=SymLib) _
                    [sample_data; sample_weight] st0 _ _ _ _ sample_data
                    sample_weight sample_bias (Ha [1; 2; 3]) eq_refl eq_refl
                    (λ e, match e with end)) 1 2 [3] eq_refl).
Defined.

(** A depthwise conv2d call returns, and its schedule is the depthwise
    template. *)
Lemma schedule_follows_compute_witness :
  ∃ st' r,
    compute_conv2d (H:=SymLib) (conv2d_node [1; 1] 4 4 "NCHW" false)
      [sample_data; sample_weight] st0 = (st', inr r)
    ∧ ∃ tmpl,
        schedule_conv2d (H:=SymLib) (conv2d_node [1; 1] 4 4 "NCHW" false)
          [made_by (nn_depthwise_conv2d_nchw sample_data sample_weight
                      [1; 1] [0; 0])] "cuda" st0 =
          requested "cuda" tmpl st0.
Proof.
  eexists _, _. split; [vm_compute; reflexivity|].
  destruct (proj1 (schedule_follows_compute (H:=SymLib)
                     (conv2d_node [1; 1] 4 4 "NCHW" false)
                     [sample_data; sample_weight] st0 _ _
                     [made_by (nn_depthwise_conv2d_nchw sample_data
                                 sample_weight [1; 1] [0; 0])] "cuda" st0)
              eq_refl) as (pre & conv & post & tmpl & _ & _ & Hs).
  by exists tmpl.
Defined.
